(** * disadis: the dissemination pipeline and the route-table construction

    A shallow embedding of [disseminator/download.go] (the
    [DownloadHandler] and its [ServeHTTP] method) and of [runHandlers]
    from the server's main package, together with the properties the
    specification states about them.

    Go strings are byte strings: they are modelled by [string] (a list of
    8-bit [ascii]).  Go's [int] is modelled by [Z]; the only place where
    its width matters is the range check of [strconv.Atoi], written out
    below for the 64-bit [int]. *)

From Stdlib Require Import ZArith String Ascii List Lia Bool.
From stdpp Require Import base option gmap strings list.

Local Open Scope Z_scope.
Local Open Scope string_scope.

(** ** The Go standard library functions the handler calls *)

Module strings.

(** [s[i:]] for [0 <= i <= len(s)]. *)
Fixpoint sliceFrom (i : nat) (s : string) : string :=
  match i, s with
  | O, _ => s
  | S i', String _ s' => sliceFrom i' s'
  | S _, EmptyString => EmptyString
  end.

(** [s[:i]] for [0 <= i <= len(s)]. *)
Fixpoint sliceTo (i : nat) (s : string) : string :=
  match i, s with
  | O, _ => EmptyString
  | S i', String c s' => String c (sliceTo i' s')
  | S _, EmptyString => EmptyString
  end.

Definition HasPrefix (s prefix : string) : bool := String.prefix prefix s.

Definition HasSuffix (s suffix : string) : bool :=
  (String.length suffix <=? String.length s)%nat
  && String.eqb (sliceFrom (String.length s - String.length suffix) s) suffix.

(** [TrimPrefix] removes one leading occurrence of [prefix], if any. *)
Definition TrimPrefix (s prefix : string) : string :=
  if HasPrefix s prefix then sliceFrom (String.length prefix) s else s.

(** [TrimSuffix] removes one trailing occurrence of [suffix], if any. *)
Definition TrimSuffix (s suffix : string) : string :=
  if HasSuffix s suffix
  then sliceTo (String.length s - String.length suffix) s else s.

(** [Index s sep]: the position of the first occurrence of [sep] in
    [s], [None] standing for Go's [-1]. *)
Fixpoint Index (s sep : string) : option nat :=
  if HasPrefix s sep then Some O
  else match s with
       | EmptyString => None
       | String _ s' => S <$> Index s' sep
       end.

(** [SplitN s sep n] for [n > 0] and a non-empty [sep]: at most [n]
    pieces, the last one being the unsplit remainder. *)
Fixpoint SplitN (s sep : string) (n : nat) : list string :=
  match n with
  | O => []
  | S O => [s]
  | S n' =>
      match Index s sep with
      | None => [s]
      | Some i =>
          sliceTo i s :: SplitN (sliceFrom (i + String.length sep) s) sep n'
      end
  end.

(** [LastIndex s substr]: the position of the last occurrence of
    [substr] in [s], or [-1].  The scan keeps the latest match seen. *)
Fixpoint lastIndexFrom (pos best : Z) (s substr : string) : Z :=
  let best' := if HasPrefix s substr then pos else best in
  match s with
  | EmptyString => best'
  | String _ s' => lastIndexFrom (pos + 1) best' s' substr
  end.

Definition LastIndex (s substr : string) : Z := lastIndexFrom 0 (-1) s substr.

End strings.

Module strconv.

(** The two failures a [*NumError] of [Atoi] can carry. *)
Inductive NumError := ErrSyntax | ErrRange.

Definition maxUint64 : Z := 2 ^ 64 - 1.
Definition maxInt64 : Z := 2 ^ 63 - 1.
Definition minInt64 : Z := - 2 ^ 63.

Definition isDigit (c : ascii) : bool :=
  ((48 <=? Z.of_nat (nat_of_ascii c)) && (Z.of_nat (nat_of_ascii c) <=? 57))%Z.

Definition digitVal (c : ascii) : Z := Z.of_nat (nat_of_ascii c) - 48.

(** The digit loop of [ParseUint(s, 10, 64)]: a byte that is no decimal
    digit is a syntax error, a value beyond [maxUint64] a range error. *)
Fixpoint parseDigits (n : Z) (s : string) : Z * option NumError :=
  match s with
  | EmptyString => (n, None)
  | String c s' =>
      if isDigit c then
        let n1 := n * 10 + digitVal c in
        if (maxUint64 <? n1)%Z then (maxUint64, Some ErrRange)
        else parseDigits n1 s'
      else (0, Some ErrSyntax)
  end.

Definition ParseUint (s : string) : Z * option NumError :=
  match s with
  | EmptyString => (0, Some ErrSyntax)
  | _ => parseDigits 0 s
  end.

(** [ParseInt(s, 10, 0)] on a platform whose [int] has 64 bits. *)
Definition ParseInt (s : string) : Z * option NumError :=
  match s with
  | EmptyString => (0, Some ErrSyntax)
  | String c s' =>
      let neg := Ascii.eqb c "-" in
      let digits := if Ascii.eqb c "+" || neg then s' else s in
      match ParseUint digits with
      | (un, Some ErrSyntax) => (0, Some ErrSyntax)
      | (un, _) =>
          if negb neg && (maxInt64 <? un)%Z then (maxInt64, Some ErrRange)
          else if neg && (- minInt64 <? un)%Z then (minInt64, Some ErrRange)
          else (if neg then - un else un, None)
      end
  end.

(** [Atoi(s)] is [ParseInt(s, 10, 0)] converted to [int]. *)
Definition Atoi (s : string) : Z * option NumError := ParseInt s.

End strconv.

(** ** [net/http]: requests, the response writer and [http.Error] *)

Module http.

Definition StatusOK : Z := 200.
Definition StatusNotModified : Z := 304.
Definition StatusUnauthorized : Z := 401.
Definition StatusForbidden : Z := 403.
Definition StatusNotFound : Z := 404.
Definition StatusInternalServerError : Z := 500.

(** [http.Header] is [map[string][]string].  Header names are kept as
    the handler writes them; Go stores them under their canonical
    spelling, which identifies no two of the names used here. *)
Definition Header_Set (key value : string)
    (h : gmap string (list string)) : gmap string (list string) :=
  <[key := [value]]> h.

(** The fields of [*http.Request] the handler reads: [r.Method],
    [r.URL.Path] and [r.Header]. *)
Record Request := mkRequest {
  Method : string;
  URL_Path : string;
  Header : gmap string (list string)
}.

(** The server's response writer: the header map handed out by
    [w.Header()], the status line and header snapshot once
    [WriteHeader] ran, and the body bytes written so far. *)
Record ResponseWriter := mkResponseWriter {
  handlerHeader : gmap string (list string);
  wroteHeader : option (Z * gmap string (list string));
  written : string
}.

Definition newResponseWriter : ResponseWriter :=
  {| handlerHeader := ∅; wroteHeader := None; written := "" |}.

Definition setHeader (key value : string) (w : ResponseWriter) : ResponseWriter :=
  {| handlerHeader := Header_Set key value (handlerHeader w);
     wroteHeader := wroteHeader w;
     written := written w |}.

(** [w.WriteHeader(code)]: the first call fixes status and headers, a
    later one is ignored. *)
Definition WriteHeader (code : Z) (w : ResponseWriter) : ResponseWriter :=
  match wroteHeader w with
  | Some _ => w
  | None =>
      {| handlerHeader := handlerHeader w;
         wroteHeader := Some (code, handlerHeader w);
         written := written w |}
  end.

Definition bodyAllowedForStatus (status : Z) : bool :=
  if ((100 <=? status) && (status <=? 199))%Z then false
  else if (status =? 204)%Z then false
  else if (status =? 304)%Z then false
  else true.

(** [w.Write(data)]: sends the header with [StatusOK] first when no
    [WriteHeader] happened, and drops the data for a status that
    allows no body. *)
Definition Write (data : string) (w : ResponseWriter) : ResponseWriter :=
  let w1 := WriteHeader StatusOK w in
  match wroteHeader w1 with
  | Some (code, _) =>
      if bodyAllowedForStatus code then
        {| handlerHeader := handlerHeader w1;
           wroteHeader := wroteHeader w1;
           written := written w1 ++ data |}
      else w1
  | None => w1
  end.

Definition newline : string := String (ascii_of_nat 10) EmptyString.

(** [http.Error(w, error, code)]. *)
Definition Error (error : string) (code : Z) (w : ResponseWriter) : ResponseWriter :=
  let w1 := setHeader "Content-Type" "text/plain; charset=utf-8" w in
  let w2 := setHeader "X-Content-Type-Options" "nosniff" w1 in
  let w3 := WriteHeader code w2 in
  Write (error ++ newline) w3.

(** [io.Copy(w, content)] for a source that yields the bytes
    [content]: an empty source causes no [Write] at all. *)
Definition Copy (content : string) (w : ResponseWriter) : ResponseWriter :=
  match content with
  | EmptyString => w
  | _ => Write content w
  end.

(** What the client receives once the handler has returned: the server
    sends the header with [StatusOK] if the handler never did. *)
Record Response := mkResponse {
  StatusCode : Z;
  ResponseHeader : gmap string (list string);
  Body : string
}.

Definition finishRequest (w : ResponseWriter) : Response :=
  match wroteHeader w with
  | Some (code, h) => {| StatusCode := code; ResponseHeader := h; Body := written w |}
  | None =>
      {| StatusCode := StatusOK; ResponseHeader := handlerHeader w; Body := written w |}
  end.

End http.

(** ** The collaborators: the repository client and the authorization checker *)

Module fedora.

(** Modelled from the spec: the package [fedora] is not part of the
    sources at hand.  Its errors are the distinguished not-found
    sentinel or any other failure. *)
Inductive error := FedoraNotFound | OtherError (msg : string).

(** Modelled from the spec: the datastream metadata and the content
    descriptor both carry a label, a MIME type, a length and a version
    identifier.  The handler reads [Label], [Type], [Length] and
    [VersionID]; [Type] is spelled [Type_] here. *)
Record DsInfo := mkDsInfo {
  Label : string;
  Type_ : string;
  Length : string;
  VersionID : string
}.

(** Modelled from the spec: the interface [Fedora] with its two calls,
    each returning its values together with an [error] that is [nil]
    ([None]) on success.  The byte source returned by [GetDatastream]
    is represented by the bytes it yields. *)
Record Fedora := mkFedora {
  GetDatastreamInfo : string -> string -> DsInfo * option error;
  GetDatastream : string -> string -> string * DsInfo * option error
}.

End fedora.

Module auth.

(** Modelled from the spec: the four-valued decision of the
    authorization checker of package [auth]. *)
Inductive Authorization := AuthDeny | AuthNotFound | AuthAllow | AuthError.

(** Modelled from the spec: [HydraAuth] is used through its one
    operation [Check(r, pid)]. *)
Record HydraAuth := mkHydraAuth {
  Check : http.Request -> string -> Authorization
}.

End auth.

(** ** [disseminator/download.go] *)

Module disseminator.

Record DownloadHandler := mkDownloadHandler {
  Fedora : fedora.Fedora;
  Ds : string;
  Versioned : bool;
  Prefix : string;
  Auth : option auth.HydraAuth
}.

(** *** Effects of a request

    A handler run changes the response writer, calls collaborators and
    writes log lines.  The calls are recorded in the order they are
    made, and so are the log lines. *)

Inductive Call :=
| AuthCheck (r : http.Request) (pid : string)
| CallGetDatastreamInfo (pid ds : string)
| CallGetDatastream (pid ds : string)
| ContentClose.

Inductive LogArg :=
| LogString (s : string)
| LogFedoraError (e : fedora.error)
| LogNumError (e : strconv.NumError).

Record World := mkWorld {
  w : http.ResponseWriter;
  calls : list Call;
  logged : list (list LogArg)
}.

Definition newWorld : World :=
  {| w := http.newResponseWriter; calls := []; logged := [] |}.

(** A statement sequence either goes on with a value, executes
    [return], or panics (an index out of range). *)
Inductive Flow (A : Type) :=
| Next (a : A)
| Returned
| Panicked.
Arguments Next {A} a.
Arguments Returned {A}.
Arguments Panicked {A}.

Definition Handler (A : Type) : Type := World -> Flow A * World.

#[global] Instance Handler_ret : MRet Handler :=
  fun A (a : A) σ => (Next a, σ).

#[global] Instance Handler_bind : MBind Handler :=
  fun A B (f : A -> Handler B) (m : Handler A) σ =>
    match m σ with
    | (Next a, σ') => f a σ'
    | (Returned, σ') => (Returned, σ')
    | (Panicked, σ') => (Panicked, σ')
    end.

Definition return_ {A} : Handler A := fun σ => (Returned, σ).
Definition panic {A} : Handler A := fun σ => (Panicked, σ).

Definition respond (f : http.ResponseWriter -> http.ResponseWriter) : Handler unit :=
  fun σ => (Next tt, {| w := f (w σ); calls := calls σ; logged := logged σ |}).

Definition call (c : Call) : Handler unit :=
  fun σ => (Next tt, {| w := w σ; calls := calls σ ++ [c]; logged := logged σ |}).

Definition log (args : list LogArg) : Handler unit :=
  fun σ => (Next tt, {| w := w σ; calls := calls σ; logged := logged σ ++ [args] |}).

(** [components[i]], which panics out of range. *)
Definition index (components : list string) (i : nat) : Handler string :=
  match components !! i with
  | Some c => mret c
  | None => panic
  end.

(** *** The handler, stage by stage *)

Definition notFound : Handler unit :=
  respond (http.Error "404 Not Found" http.StatusNotFound).

(** Lines 74-77: the method gate. *)
Definition methodGate (r : http.Request) : Handler unit :=
  if negb (String.eqb (http.Method r) "GET") then notFound ;; return_
  else mret tt.

(** Lines 80-82: the path components. *)
Definition pathComponents (r : http.Request) : list string :=
  let path := strings.TrimPrefix (http.URL_Path r) "/" in
  let path := strings.TrimSuffix path "/" in
  strings.SplitN path "/" 2.

(** Lines 90-107: the authorization check.  [AuthError] falls through
    to the [default] arm of the switch. *)
Definition checkAuth (dh : DownloadHandler) (r : http.Request) (pid : string)
    : Handler unit :=
  match Auth dh with
  | Some a =>
      call (AuthCheck r pid) ;;
      match auth.Check a r pid with
      | auth.AuthDeny =>
          respond (http.Error "401 Unauthorized" http.StatusUnauthorized) ;;
          return_
      | auth.AuthNotFound => notFound ;; return_
      | auth.AuthAllow => mret tt
      | auth.AuthError =>
          respond (http.Error "500 Server Error" http.StatusInternalServerError) ;;
          return_
      end
  | None => mret tt
  end.

(** Lines 109-125: the requested version, [-1] for the current one. *)
Definition parseVersion (dh : DownloadHandler) (components : list string)
    : Handler Z :=
  match length components with
  | 1%nat => mret (-1)
  | 2%nat =>
      if Versioned dh then
        c1 ← index components 1 ;
        let '(version, err) := strconv.Atoi c1 in
        match err with
        | None => if (0 <=? version)%Z then mret version else notFound ;; return_
        | Some _ => notFound ;; return_
        end
      else notFound ;; return_
  | _ => notFound ;; return_
  end.

(** Lines 181-194: [currentVersion], [-1] on error. *)
Definition currentVersion (dh : DownloadHandler) (info : fedora.DsInfo)
    : Handler Z :=
  let i := strings.LastIndex (fedora.VersionID info) "." in
  if (i =? -1)%Z then
    log [LogString "Error parsing"; LogString (fedora.VersionID info)] ;;
    mret (-1)
  else
    let '(version, err) :=
      strconv.Atoi (strings.sliceFrom (Z.to_nat (i + 1)) (fedora.VersionID info)) in
    match err with
    | Some e => log [LogNumError e] ;; mret (-1)
    | None => mret version
    end.

(** Lines 127-132: the metadata fetch. *)
Definition fetchInfo (dh : DownloadHandler) (pid : string) : Handler fedora.DsInfo :=
  call (CallGetDatastreamInfo pid (Ds dh)) ;;
  let '(dsinfo, err) := fedora.GetDatastreamInfo (Fedora dh) pid (Ds dh) in
  match err with
  | Some e => log [LogFedoraError e] ;; notFound ;; return_
  | None => mret dsinfo
  end.

(** Lines 135-138: the requested version against the current one. *)
Definition checkVersion (dh : DownloadHandler) (version : Z)
    (dsinfo : fedora.DsInfo) : Handler unit :=
  if (0 <=? version)%Z then
    current ← currentVersion dh dsinfo ;
    if negb (version =? current)%Z then
      respond (http.Error "403 Forbidden" http.StatusForbidden) ;; return_
    else mret tt
  else mret tt.

(** Lines 143-149: the loop over the values of [If-None-Match]. *)
Fixpoint etagLoop (etags : list string) (dsinfo : fedora.DsInfo) : Handler unit :=
  match etags with
  | [] => mret tt
  | etag :: rest =>
      if String.eqb etag (fedora.VersionID dsinfo) then
        respond (http.setHeader "ETag" (fedora.VersionID dsinfo)) ;;
        respond (http.WriteHeader http.StatusNotModified) ;;
        return_
      else etagLoop rest dsinfo
  end.

(** Lines 141-150: the conditional check. *)
Definition etagMatch (r : http.Request) (dsinfo : fedora.DsInfo) : Handler unit :=
  match http.Header r !! "If-None-Match" with
  | Some etags => etagLoop etags dsinfo
  | None => mret tt
  end.

Definition quote : string := String (ascii_of_nat 34) EmptyString.

(** Lines 153-177: the content fetch and the streaming of the bytes. *)
Definition sendContent (dh : DownloadHandler) (pid : string)
    (dsinfo : fedora.DsInfo) : Handler unit :=
  call (CallGetDatastream pid (Ds dh)) ;;
  let '(content, info, err) := fedora.GetDatastream (Fedora dh) pid (Ds dh) in
  match err with
  | Some fedora.FedoraNotFound => notFound ;; return_
  | Some e =>
      log [LogString "Got fedora error: %s"; LogFedoraError e] ;;
      respond (http.Error "500 Internal Error" http.StatusInternalServerError) ;;
      return_
  | None =>
      respond (http.setHeader "Content-Type" (fedora.Type_ info)) ;;
      respond (http.setHeader "Content-Length" (fedora.Length info)) ;;
      respond (http.setHeader "Content-Disposition"
                 ("inline; filename=" ++ quote ++ fedora.Label dsinfo ++ quote)) ;;
      respond (http.setHeader "Content-Transfer-Encoding" "binary") ;;
      respond (http.setHeader "Cache-Control" "private") ;;
      respond (http.setHeader "ETag" (fedora.VersionID dsinfo)) ;;
      respond (http.Copy content) ;;
      call ContentClose ;;
      return_
  end.

(** Lines 127-177: everything after the version segment was read. *)
Definition serveVersion (dh : DownloadHandler) (r : http.Request)
    (pid : string) (version : Z) : Handler unit :=
  dsinfo ← fetchInfo dh pid ;
  checkVersion dh version dsinfo ;;
  etagMatch r dsinfo ;;
  sendContent dh pid dsinfo.

Definition ServeHTTP (dh : DownloadHandler) (r : http.Request) : Handler unit :=
  log [LogString "%s %s"; LogString (http.Method r); LogString (http.URL_Path r)] ;;
  methodGate r ;;
  let components := pathComponents r in
  c0 ← index components 0 ;
  let pid := Prefix dh ++ c0 in
  checkAuth dh r pid ;;
  version ← parseVersion dh components ;
  serveVersion dh r pid version.

(** *** Running the handler on a fresh response writer *)

Definition run (dh : DownloadHandler) (r : http.Request) : Flow unit * World :=
  ServeHTTP dh r newWorld.

Definition response (dh : DownloadHandler) (r : http.Request) : http.Response :=
  http.finishRequest (w (run dh r).2).

Definition status (dh : DownloadHandler) (r : http.Request) : Z :=
  http.StatusCode (response dh r).

Definition callsMade (dh : DownloadHandler) (r : http.Request) : list Call :=
  calls (run dh r).2.

Definition isFedoraCall (c : Call) : bool :=
  match c with
  | CallGetDatastreamInfo _ _ | CallGetDatastream _ _ => true
  | _ => false
  end.

(** Lines 61-65: a handler for the repository client [f], every other
    field left at its zero value. *)
Definition NewDownloadHandler (f : fedora.Fedora) : DownloadHandler :=
  {| Fedora := f; Ds := ""; Versioned := false; Prefix := ""; Auth := None |}.

End disseminator.

(** ** The server's main package: [runHandlers] *)

Module main.

(** One entry of [Config.Handler]. *)
Record HandlerConfig := mkHandlerConfig {
  Port : string;
  Auth : bool;
  Versioned : bool;
  Prefix : string;
  Datastream : string;
  Datastream_id : list string
}.

(** The closure [hh] built for a configuration entry: it captures the
    entry's name [k] and its download handler [h], serves the request
    with [h], and logs the request afterwards. *)
Record HandlerFunc := mkHandlerFunc {
  k : string;
  h : disseminator.DownloadHandler
}.

(** Modelled from the spec: the multiplexer type [DsidMux] is not part
    of the sources at hand.  It holds the pipelines registered under
    segment identifiers and the default pipeline of its port. *)
Record DsidMux := mkDsidMux {
  DefaultHandler : option HandlerFunc;
  handlers : gmap string HandlerFunc
}.

Definition newDsidMux : DsidMux :=
  {| DefaultHandler := None; handlers := ∅ |}.

Definition setDefaultHandler (hh : HandlerFunc) (mux : DsidMux) : DsidMux :=
  {| DefaultHandler := Some hh; handlers := handlers mux |}.

(** Modelled from the spec: [AddHandler] registers a pipeline under a
    segment identifier; a second registration of an identifier
    replaces the first. *)
Definition AddHandler (name : string) (hh : HandlerFunc) (mux : DsidMux) : DsidMux :=
  {| DefaultHandler := DefaultHandler mux; handlers := <[name := hh]> (handlers mux) |}.

(** Lines 202-210: the download handler of a configuration entry. *)
Definition newHandler (fedora : fedora.Fedora) (auth : auth.HydraAuth)
    (v : HandlerConfig) : disseminator.DownloadHandler :=
  {| disseminator.Fedora := fedora;
     disseminator.Ds := Datastream v;
     disseminator.Versioned := Versioned v;
     disseminator.Prefix := Prefix v;
     disseminator.Auth := if Auth v then Some auth else None |}.

(** Lines 242-248: the loop over the segment identifiers. *)
Fixpoint addNames (names : list string) (hh : HandlerFunc) (mux : DsidMux) : DsidMux :=
  match names with
  | [] => mux
  | name :: rest =>
      if String.eqb name "default"
      then addNames rest hh (setDefaultHandler hh mux)
      else addNames rest hh (AddHandler name hh mux)
  end.

(** Lines 201-249: the body of the loop over [config.Handler], for the
    entry [v] named [key]. *)
Definition addHandlerEntry (fedora : fedora.Fedora) (auth : auth.HydraAuth)
    (portHandlers : gmap string DsidMux) (entry : string * HandlerConfig)
    : gmap string DsidMux :=
  let '(key, v) := entry in
  let h := newHandler fedora auth v in
  let mux :=
    match portHandlers !! Port v with
    | Some mux => mux
    | None => newDsidMux
    end in
  let hh := {| k := key; h := h |} in
  let mux :=
    if (length (Datastream_id v) =? 0)%nat then setDefaultHandler hh mux else mux in
  let mux := addNames (Datastream_id v) hh mux in
  <[Port v := mux]> portHandlers.

(** The route table [runHandlers] builds before it starts the
    listeners.  [entries] lists [config.Handler] in the order the
    [range] loop visits it, which Go leaves unspecified. *)
Definition runHandlers (entries : list (string * HandlerConfig))
    (fedora : fedora.Fedora) (auth : auth.HydraAuth) : gmap string DsidMux :=
  foldl (addHandlerEntry fedora auth) ∅ entries.

(** *** The log file, the signals and [main]

    Of the process, this part of the model keeps the destination of the
    output of package [log] and the set of files it has open; the lines
    written to the log are left out. *)

(** A step of the process either leaves it running or ends it with an
    exit code ([os.Exit], [log.Fatal]). *)
Inductive Exec (A : Type) :=
| Running (a : A)
| Exited (code : Z).
Arguments Running {A} a.
Arguments Exited {A} code.

(** An open file, named by its descriptor. *)
Definition File : Type := positive.

Record Process := mkProcess {
  output : option File;   (* [None]: the destination set at start-up *)
  openFiles : gset File
}.


(** Lines 26-29. *)
Record loginfo := mkLoginfo {
  name : string;
  f : option File
}.

(** Lines 31-33. *)
Definition NewReopener (filename : string) : loginfo :=
  {| name := filename; f := None |}.

Inductive Signal := SIGHUP | SIGUSR1 | SIGUSR2.


(** Lines 63-85: the configuration file.  [Handler] lists the entries
    in the order the loop of [runHandlers] visits them. *)
Record General := mkGeneral {
  Log_filename : string;
  Fedora_addr : string;
  Admin : list string
}.

Record Pubtkt := mkPubtkt { Key_file : string }.

Record Rails := mkRails {
  Secret : string;
  Cookie : string;
  Database : string
}.

Record Config := mkConfig {
  General_ : General;
  Pubtkt_ : Pubtkt;
  Rails_ : Rails;
  Handler : list (string * HandlerConfig)
}.

(** The zero value of [Config]. *)
Definition zeroConfig : Config :=
  {| General_ := {| Log_filename := ""; Fedora_addr := ""; Admin := [] |};
     Pubtkt_ := {| Key_file := "" |};
     Rails_ := {| Secret := ""; Cookie := ""; Database := "" |};
     Handler := [] |}.

(** Lines 88-98: the variables of [main] that the flags set. *)
Record Vars := mkVars {
  logfilename : string;
  pubtktKey : string;
  fedoraAddr : string;
  secret : string;
  database : string;
  cookieName : string;
  configFile : string
}.

(** How [main] ends: the process exits, [main] returns, or the
    listeners are started with a route table and run for ever. *)
Inductive Outcome :=
| Exits (code : Z)
| Returns
| Serves (logw : loginfo) (p : Process) (table : gmap string DsidMux).

Section Environment.

(** What the operating system and the packages outside the sources
    answer. *)

(** [os.OpenFile(name, O_RDWR|O_APPEND|O_CREATE, 0666)], given the
    files the process has open: a new descriptor, or an error. *)
Variable OpenFile : string -> gset File -> option File.

(** [gcfg.ReadFileInto(&config, configFile)] on the zero [Config]: what
    the structure holds afterwards, and the error. *)
Variable ReadFileInto : string -> Config * option string.

(** The value of [ha.CurrentUser]. *)
Variable CurrentUser : Type.

(** [auth.NewPubtktAuthFromKeyFile(pubtktKey)], which may end the
    process. *)
Variable NewPubtktAuthFromKeyFile : string -> Exec CurrentUser.

(** [sql.Open("mysql", database)], and the [auth.DeviseAuth] built on
    the open database from the secret and the cookie name. *)
Variable DB : Type.
Variable sql_Open : string -> string -> DB * option string.
Variable DeviseAuth : string -> string -> DB -> CurrentUser.

(** [fedora.NewRemote(fedoraAddr, "")]. *)
Variable NewRemote : string -> string -> fedora.Fedora.

(** The checker [auth.NewHydraAuth(fedoraAddr, "")] once its fields
    [Admin] and [CurrentUser] are set; [None] is the nil
    [CurrentUser]. *)
Variable NewHydraAuth :
  string -> string -> list string -> option CurrentUser -> auth.HydraAuth.

(** Lines 35-51: the method [Reopen] of [loginfo]. *)
Definition loginfo_Reopen (li : loginfo) (p : Process) : Exec (loginfo * Process) :=
  if String.eqb (name li) "" then Running (li, p)
  else
    match OpenFile (name li) (openFiles p) with
    | None => Exited 1
    | Some newf =>
        let opened := {[ newf ]} ∪ openFiles p in
        let remaining :=
          match f li with
          | Some old => opened ∖ {[ old ]}
          | None => opened
          end in
        Running ({| name := name li; f := Some newf |},
                 {| output := Some newf; openFiles := remaining |})
    end.


(** Lines 118-129: the settings, which the configuration file, when one
    is named, replaces altogether. *)
Definition settings (vars : Vars) : Vars * Config :=
  if negb (String.eqb (configFile vars) "") then
    let '(config, err) := ReadFileInto (configFile vars) in
    ({| logfilename := Log_filename (General_ config);
        pubtktKey := Key_file (Pubtkt_ config);
        fedoraAddr := Fedora_addr (General_ config);
        secret := Secret (Rails_ config);
        database := Database (Rails_ config);
        cookieName := Cookie (Rails_ config);
        configFile := configFile vars |},
     config)
  else (vars, zeroConfig).

(** Lines 151-178: the choice of [ha.CurrentUser]. *)
Definition currentUser (vars : Vars) : Exec (option CurrentUser) :=
  if negb (String.eqb (pubtktKey vars) "") then
    match NewPubtktAuthFromKeyFile (pubtktKey vars) with
    | Running user => Running (Some user)
    | Exited code => Exited code
    end
  else if negb (String.eqb (secret vars) "") then
    if String.eqb (cookieName vars) "" then Running None
    else if String.eqb (database vars) "" then Running None
    else
      let '(db, err) := sql_Open "mysql" (database vars) in
      match err with
      | Some _ => Running None
      | None => Running (Some (DeviseAuth (secret vars) (cookieName vars) db))
      end
  else Running None.

(** Lines 87-188: [main], from the values of the flags and the state of
    the process at start. *)
Definition main (flags : Vars) (p0 : Process) : Outcome :=
  let '(vars, config) := settings flags in
  match loginfo_Reopen (NewReopener (logfilename vars)) p0 with
  | Exited code => Exits code
  | Running (logw, p) =>
      if String.eqb (fedoraAddr vars) "" then Exits 1
      else
        let fedora := NewRemote (fedoraAddr vars) "" in
        match currentUser vars with
        | Exited code => Exits code
        | Running user =>
            let ha :=
              NewHydraAuth (fedoraAddr vars) "" (Admin (General_ config)) user in
            if (length (Handler config) =? 0)%nat then Returns
            else Serves logw p (runHandlers (Handler config) fedora ha)
        end
  end.

End Environment.

End main.

(** ** Vocabulary of the specification *)

Module Spec.

Import disseminator.

(** [c] occurs in [s]. *)
Fixpoint hasByte (c : ascii) (s : string) : bool :=
  match s with
  | EmptyString => false
  | String a s' => Ascii.eqb a c || hasByte c s'
  end.

(** A path of [n] separators. *)
Fixpoint separators (n : nat) : string :=
  match n with
  | O => EmptyString
  | S n' => String "/" (separators n')
  end.

(** The version identifier [vid] has the form [<base>.<N>], [N] being
    the text after the last ['.'], and [N] parses as the integer [n]. *)
Definition numericSuffix (vid : string) (n : Z) : Prop :=
  exists base suf : string,
    vid = base ++ "." ++ suf /\ hasByte "." suf = false /\
    strconv.Atoi suf = (n, None).

(** The version identifier has no ['.'], or the text after its last
    ['.'] does not parse as an integer. *)
Definition unparsableVersionID (vid : string) : Prop :=
  hasByte "." vid = false \/
  exists base suf : string,
    vid = base ++ "." ++ suf /\ hasByte "." suf = false /\
    (strconv.Atoi suf).2 <> None.

(** [s] parses as a non-negative integer. *)
Definition parsesNonNegative (s : string) : Prop :=
  (strconv.Atoi s).2 = None /\ (0 <= (strconv.Atoi s).1)%Z.

(** The identifier the handler forms for a request: the configured
    prefix followed by the first path component. *)
Definition identifier (dh : DownloadHandler) (r : http.Request) : string :=
  Prefix dh ++ List.hd "" (pathComponents r).

(** The authorization stage lets the request through: no checker is
    configured, or the checker allows. *)
Definition authPasses (dh : DownloadHandler) (r : http.Request) : Prop :=
  match Auth dh with
  | None => True
  | Some a => auth.Check a r (identifier dh r) = auth.AuthAllow
  end.

(** The version segment is accepted with the value [version]: there is
    none ([-1]), or the handler is versioned and the segment parses as
    the non-negative integer [version]. *)
Definition versionAccepted (dh : DownloadHandler) (r : http.Request)
    (version : Z) : Prop :=
  (exists c0, pathComponents r = [c0] /\ version = (-1)%Z) \/
  (exists c0 c1, pathComponents r = [c0; c1] /\ Versioned dh = true /\
     strconv.Atoi c1 = (version, None) /\ (0 <= version)%Z).

(** The request reaches the metadata fetch, holding [version]. *)
Definition reachesMetadataFetch (dh : DownloadHandler) (r : http.Request)
    (version : Z) : Prop :=
  http.Method r = "GET" /\ authPasses dh r /\ versionAccepted dh r version.

(** The handler fetches the metadata of the request's identifier: the
    call is among the calls it makes. *)
Definition fetchesMetadata (dh : DownloadHandler) (r : http.Request) : Prop :=
  CallGetDatastreamInfo (identifier dh r) (Ds dh) ∈ callsMade dh r.

(** The handler fetches the metadata, and the metadata is [dsinfo]. *)
Definition fetchedMetadata (dh : DownloadHandler) (r : http.Request)
    (dsinfo : fedora.DsInfo) : Prop :=
  fetchesMetadata dh r /\
  fedora.GetDatastreamInfo (Fedora dh) (identifier dh r) (Ds dh) = (dsinfo, None).

(** The request reaches the conditional check with the metadata
    [dsinfo]: the fetch succeeded, and a requested version is the
    current one. *)
Definition reachesConditionalCheck (dh : DownloadHandler) (r : http.Request)
    (dsinfo : fedora.DsInfo) : Prop :=
  exists version,
    reachesMetadataFetch dh r version /\
    fedora.GetDatastreamInfo (Fedora dh) (identifier dh r) (Ds dh) = (dsinfo, None) /\
    (version = (-1)%Z \/ numericSuffix (fedora.VersionID dsinfo) version).

(** The handler without its authorization checker. *)
Definition withoutAuth (dh : DownloadHandler) : DownloadHandler :=
  {| Fedora := Fedora dh; Ds := Ds dh; Versioned := Versioned dh;
     Prefix := Prefix dh; Auth := None |}.

(** The state after the request line was logged. *)
Definition entered (r : http.Request) : World :=
  {| w := http.newResponseWriter; calls := [];
     logged := [[LogString "%s %s"; LogString (http.Method r);
                 LogString (http.URL_Path r)]] |}.

(** The state in which the stages after the authorization run: the
    request is logged and the checker, if any, was called. *)
Definition afterAuth (dh : DownloadHandler) (r : http.Request) : World :=
  {| w := http.newResponseWriter;
     calls := match Auth dh with
              | Some _ => [AuthCheck r (identifier dh r)]
              | None => []
              end;
     logged := [[LogString "%s %s"; LogString (http.Method r);
                 LogString (http.URL_Path r)]] |}.

(** The headers of a successful content response. *)
Definition contentHeaders (dsinfo info : fedora.DsInfo) : gmap string (list string) :=
  list_to_map
    [("Content-Type", [fedora.Type_ info]);
     ("Content-Length", [fedora.Length info]);
     ("Content-Disposition",
       ["inline; filename=" ++ quote ++ fedora.Label dsinfo ++ quote]);
     ("Content-Transfer-Encoding", ["binary"]);
     ("Cache-Control", ["private"]);
     ("ETag", [fedora.VersionID dsinfo])].

(** The response of the authorization stage to a decision that is not
    [AuthAllow]. *)
Definition refusal (d : auth.Authorization) : string * Z :=
  match d with
  | auth.AuthDeny => ("401 Unauthorized", 401%Z)
  | auth.AuthNotFound => ("404 Not Found", 404%Z)
  | _ => ("500 Server Error", 500%Z)
  end.

(** The same state with the calls [cs] made beforehand. *)
Definition prependCalls (cs : list Call) (σ : World) : World :=
  {| w := w σ; calls := cs ++ calls σ; logged := logged σ |}.

(** A computation that only appends to the record of calls: calls
    made beforehand change neither its outcome nor what it adds. *)
Definition framed {A} (m : Handler A) : Prop :=
  forall cs σ, m (prependCalls cs σ) = ((m σ).1, prependCalls cs (m σ).2).

(** The closure [runHandlers] builds for the entry [v] named [key]. *)
Definition closure (fedora : fedora.Fedora) (auth : auth.HydraAuth)
    (key : string) (v : main.HandlerConfig) : main.HandlerFunc :=
  {| main.k := key; main.h := main.newHandler fedora auth v |}.

(** The multiplexer of a port in a route table under construction: the
    one registered, or a new one. *)
Definition muxOf (portHandlers : gmap string main.DsidMux) (port : string)
    : main.DsidMux :=
  match portHandlers !! port with
  | Some mux => mux
  | None => main.newDsidMux
  end.

(** No call to the repository client. *)
Definition noFedoraCall (cs : list Call) : Prop :=
  Forall (fun c => isFedoraCall c = false) cs.

(** *** The exits of [ServeHTTP] *)

(** The writer [http.Error] leaves when it runs on a fresh one. *)
Definition errorWriter (msg : string) (code : Z) : http.ResponseWriter :=
  http.Error msg code http.newResponseWriter.

(** The writer of the 304 response. *)
Definition notModifiedWriter (dsinfo : fedora.DsInfo) : http.ResponseWriter :=
  http.WriteHeader http.StatusNotModified
    (http.setHeader "ETag" (fedora.VersionID dsinfo) http.newResponseWriter).

(** The writer of the content response: the six headers are set in the
    order of the source, then the bytes are copied. *)
Definition contentWriter (dsinfo info : fedora.DsInfo) (content : string)
    : http.ResponseWriter :=
  http.Copy content
    (http.setHeader "ETag" (fedora.VersionID dsinfo)
       (http.setHeader "Cache-Control" "private"
          (http.setHeader "Content-Transfer-Encoding" "binary"
             (http.setHeader "Content-Disposition"
                ("inline; filename=" ++ quote ++ fedora.Label dsinfo ++ quote)
                (http.setHeader "Content-Length" (fedora.Length info)
                   (http.setHeader "Content-Type" (fedora.Type_ info)
                      http.newResponseWriter)))))).

(** The calls of the authorization stage: the checker's, if one is
    configured. *)
Definition authCalls (dh : DownloadHandler) (r : http.Request) : list Call :=
  match Auth dh with
  | Some _ => [AuthCheck r (identifier dh r)]
  | None => []
  end.

Definition infoCall (dh : DownloadHandler) (r : http.Request) : Call :=
  CallGetDatastreamInfo (identifier dh r) (Ds dh).

Definition contentCall (dh : DownloadHandler) (r : http.Request) : Call :=
  CallGetDatastream (identifier dh r) (Ds dh).

(** Some value of [If-None-Match] equals the version identifier. *)
Definition validatorMatches (r : http.Request) (dsinfo : fedora.DsInfo) : Prop :=
  exists etags, http.Header r !! "If-None-Match" = Some etags /\
                fedora.VersionID dsinfo ∈ etags.

(** The message and status of a failed content fetch. *)
Definition contentFailure (e : fedora.error) : string * Z :=
  match e with
  | fedora.FedoraNotFound => ("404 Not Found", 404%Z)
  | fedora.OtherError _ => ("500 Internal Error", 500%Z)
  end.

(** The eight ways [ServeHTTP] ends, each with the response writer it
    leaves and the calls it has made. *)
Inductive exits (dh : DownloadHandler) (r : http.Request)
    : http.ResponseWriter -> list Call -> Prop :=
| exit_method :
    http.Method r <> "GET" ->
    exits dh r (errorWriter "404 Not Found" 404) []
| exit_auth (a : auth.HydraAuth) :
    http.Method r = "GET" ->
    Auth dh = Some a ->
    auth.Check a r (identifier dh r) <> auth.AuthAllow ->
    exits dh r
      (errorWriter (refusal (auth.Check a r (identifier dh r))).1
                   (refusal (auth.Check a r (identifier dh r))).2)
      [AuthCheck r (identifier dh r)]
| exit_version (c0 c1 : string) :
    http.Method r = "GET" ->
    authPasses dh r ->
    pathComponents r = [c0; c1] ->
    Versioned dh = false \/ ~ parsesNonNegative c1 ->
    exits dh r (errorWriter "404 Not Found" 404) (authCalls dh r)
| exit_metadata (version : Z) (dsinfo : fedora.DsInfo) (e : fedora.error) :
    reachesMetadataFetch dh r version ->
    fedora.GetDatastreamInfo (Fedora dh) (identifier dh r) (Ds dh) = (dsinfo, Some e) ->
    exits dh r (errorWriter "404 Not Found" 404) (authCalls dh r ++ [infoCall dh r])
| exit_mismatch (version : Z) (dsinfo : fedora.DsInfo) :
    reachesMetadataFetch dh r version ->
    fedora.GetDatastreamInfo (Fedora dh) (identifier dh r) (Ds dh) = (dsinfo, None) ->
    (0 <= version)%Z ->
    ~ numericSuffix (fedora.VersionID dsinfo) version ->
    exits dh r (errorWriter "403 Forbidden" 403) (authCalls dh r ++ [infoCall dh r])
| exit_not_modified (dsinfo : fedora.DsInfo) :
    reachesConditionalCheck dh r dsinfo ->
    validatorMatches r dsinfo ->
    exits dh r (notModifiedWriter dsinfo) (authCalls dh r ++ [infoCall dh r])
| exit_content_error (dsinfo info : fedora.DsInfo) (content : string)
    (e : fedora.error) :
    reachesConditionalCheck dh r dsinfo ->
    ~ validatorMatches r dsinfo ->
    fedora.GetDatastream (Fedora dh) (identifier dh r) (Ds dh) = (content, info, Some e) ->
    exits dh r (errorWriter (contentFailure e).1 (contentFailure e).2)
      (authCalls dh r ++ [infoCall dh r; contentCall dh r])
| exit_content (dsinfo info : fedora.DsInfo) (content : string) :
    reachesConditionalCheck dh r dsinfo ->
    ~ validatorMatches r dsinfo ->
    fedora.GetDatastream (Fedora dh) (identifier dh r) (Ds dh) = (content, info, None) ->
    exits dh r (contentWriter dsinfo info content)
      (authCalls dh r ++ [infoCall dh r; contentCall dh r; ContentClose]).

(** The headers [http.Error] sets. *)
Definition errorHeaders : gmap string (list string) :=
  {[ "Content-Type" := ["text/plain; charset=utf-8"];
     "X-Content-Type-Options" := ["nosniff"] ]}.

(** The response to a request that ends in an error: the status, the
    two headers of [http.Error], and the message on a line. *)
Definition errorResponse (msg : string) (code : Z) : http.Response :=
  {| http.StatusCode := code;
     http.ResponseHeader := errorHeaders;
     http.Body := msg ++ http.newline |}.

(** The messages and statuses of the handler's error responses. *)
Definition errorMessages : list (string * Z) :=
  [("404 Not Found", 404%Z); ("401 Unauthorized", 401%Z);
   ("500 Server Error", 500%Z); ("403 Forbidden", 403%Z);
   ("500 Internal Error", 500%Z)].

(** The handler with its [Versioned] flag set to [b]. *)
Definition withVersioned (b : bool) (dh : DownloadHandler) : DownloadHandler :=
  {| Fedora := Fedora dh; Ds := Ds dh; Versioned := b;
     Prefix := Prefix dh; Auth := Auth dh |}.

(** The path of a request with one leading and one trailing separator
    removed, as [ServeHTTP] splits it. *)
Definition trimmedPath (r : http.Request) : string :=
  strings.TrimSuffix (strings.TrimPrefix (http.URL_Path r) "/") "/".

(** The request [r] with the path [path]. *)
Definition withPath (path : string) (r : http.Request) : http.Request :=
  {| http.Method := http.Method r; http.URL_Path := path;
     http.Header := http.Header r |}.

(** Two states with the same response writer and the same calls. *)
Definition sameOutput (σ1 σ2 : World) : Prop :=
  w σ1 = w σ2 /\ calls σ1 = calls σ2.

(** Two computations that, from states with the same output, end the
    same way in states with the same output. *)
Definition alike {A} (m1 m2 : Handler A) : Prop :=
  forall σ1 σ2, sameOutput σ1 σ2 ->
    (m1 σ1).1 = (m2 σ2).1 /\ sameOutput (m1 σ1).2 (m2 σ2).2.

(** *** The route table *)

(** The entry [v] lists [name] as a routable segment. *)
Definition routes (v : main.HandlerConfig) (name : string) : Prop :=
  name ∈ main.Datastream_id v /\ name <> "default".

(** The entry [v] asks to be the default of its port: it lists no
    segment identifier, or lists [default]. *)
Definition claimsDefault (v : main.HandlerConfig) : Prop :=
  main.Datastream_id v = [] \/ "default" ∈ main.Datastream_id v.

(** Two entries conflict: they are bound to the same port and both list
    some routable segment, or both ask to be the default. *)
Definition conflict (v1 v2 : main.HandlerConfig) : Prop :=
  main.Port v1 = main.Port v2 /\
  ((exists name, routes v1 name /\ routes v2 name) \/
   (claimsDefault v1 /\ claimsDefault v2)).

(** What the loop body of [runHandlers] makes of the multiplexer of
    the entry's port. *)
Definition entryMux (hh : main.HandlerFunc) (v : main.HandlerConfig)
    (mux : main.DsidMux) : main.DsidMux :=
  main.addNames (main.Datastream_id v) hh
    (if (length (main.Datastream_id v) =? 0)%nat
     then main.setDefaultHandler hh mux else mux).

#[global] Instance routes_dec (v : main.HandlerConfig) (name : string) : Decision (routes v name).
Proof. unfold routes. apply _. Defined.

#[global] Instance claimsDefault_dec (v : main.HandlerConfig) : Decision (claimsDefault v).
Proof. unfold claimsDefault. apply _. Defined.

(** The bindings of the table built from [entries], port by port. *)
Definition tableInvariant (fedora : fedora.Fedora) (auth : auth.HydraAuth)
    (entries : list (string * main.HandlerConfig))
    (t : gmap string main.DsidMux) : Prop :=
  forall port,
    (forall name hh, main.handlers (muxOf t port) !! name = Some hh ->
       exists key v, (key, v) ∈ entries /\ main.Port v = port /\
                     routes v name /\ hh = closure fedora auth key v) /\
    (forall key v name, (key, v) ∈ entries -> main.Port v = port -> routes v name ->
       is_Some (main.handlers (muxOf t port) !! name)) /\
    (forall hh, main.DefaultHandler (muxOf t port) = Some hh ->
       exists key v, (key, v) ∈ entries /\ main.Port v = port /\
                     claimsDefault v /\ hh = closure fedora auth key v) /\
    (forall key v, (key, v) ∈ entries -> main.Port v = port -> claimsDefault v ->
       is_Some (main.DefaultHandler (muxOf t port))).

(** *** The log file *)

(** The operating system hands out descriptors that are not in use. *)
Definition freshDescriptors (OpenFile : string -> gset main.File -> option main.File)
    : Prop :=
  forall name opened h, OpenFile name opened = Some h -> h ∉ opened.

(** The file a [loginfo] holds, as a set. *)
Definition logFiles (li : main.loginfo) : gset main.File :=
  match main.f li with
  | Some h => {[ h ]}
  | None => ∅
  end.

(** The file a [loginfo] holds is open and is where the log goes. *)
Definition wellLogged (s : main.loginfo * main.Process) : Prop :=
  forall h, main.f s.1 = Some h ->
    main.output s.2 = Some h /\ h ∈ main.openFiles s.2.

#[global] Instance Signal_eq_dec : EqDecision main.Signal.
Proof. solve_decision. Defined.

End Spec.

(** ** Sample collaborators, handlers and requests *)

Module Sample.

Import disseminator.

Definition noInfo : fedora.DsInfo :=
  {| fedora.Label := ""; fedora.Type_ := ""; fedora.Length := "";
     fedora.VersionID := "" |}.

Definition info3 : fedora.DsInfo :=
  {| fedora.Label := "report.pdf"; fedora.Type_ := "application/pdf";
     fedora.Length := "5"; fedora.VersionID := "abc123.3" |}.

(** A repository that holds the one object [abc123]. *)
Definition repository : fedora.Fedora :=
  {| fedora.GetDatastreamInfo := fun pid _ =>
       if String.eqb pid "abc123" then (info3, None)
       else (noInfo, Some fedora.FedoraNotFound);
     fedora.GetDatastream := fun pid _ =>
       if String.eqb pid "abc123" then ("hello", info3, None)
       else ("", noInfo, Some fedora.FedoraNotFound) |}.

(** A repository whose version identifier carries no number. *)
Definition unnumbered : fedora.Fedora :=
  {| fedora.GetDatastreamInfo := fun _ _ =>
       ({| fedora.Label := "report.pdf"; fedora.Type_ := "application/pdf";
           fedora.Length := "5"; fedora.VersionID := "content" |}, None);
     fedora.GetDatastream := fun _ _ => ("hello", info3, None) |}.

(** A repository that cannot be reached. *)
Definition unreachable : fedora.Fedora :=
  {| fedora.GetDatastreamInfo := fun _ _ =>
       (noInfo, Some (fedora.OtherError "connection refused"));
     fedora.GetDatastream := fun _ _ =>
       ("", noInfo, Some (fedora.OtherError "connection refused")) |}.

(** A repository whose object vanishes between the two calls. *)
Definition vanishing : fedora.Fedora :=
  {| fedora.GetDatastreamInfo := fun _ _ => (info3, None);
     fedora.GetDatastream := fun _ _ => ("", noInfo, Some fedora.FedoraNotFound) |}.

Definition always (d : auth.Authorization) : auth.HydraAuth :=
  {| auth.Check := fun _ _ => d |}.

Definition versioned : DownloadHandler :=
  {| Fedora := repository; Ds := "content"; Versioned := true;
     Prefix := ""; Auth := None |}.

Definition unversioned : DownloadHandler :=
  {| Fedora := repository; Ds := "content"; Versioned := false;
     Prefix := ""; Auth := None |}.

Definition guarded (d : auth.Authorization) : DownloadHandler :=
  {| Fedora := repository; Ds := "content"; Versioned := true;
     Prefix := ""; Auth := Some (always d) |}.

Definition guardedUnversioned (d : auth.Authorization) : DownloadHandler :=
  {| Fedora := repository; Ds := "content"; Versioned := false;
     Prefix := ""; Auth := Some (always d) |}.

Definition offline : DownloadHandler :=
  {| Fedora := unreachable; Ds := "content"; Versioned := true;
     Prefix := ""; Auth := None |}.

Definition stale : DownloadHandler :=
  {| Fedora := unnumbered; Ds := "content"; Versioned := true;
     Prefix := ""; Auth := None |}.

Definition GET (path : string) : http.Request :=
  {| http.Method := "GET"; http.URL_Path := path; http.Header := ∅ |}.

Definition POST (path : string) : http.Request :=
  {| http.Method := "POST"; http.URL_Path := path; http.Header := ∅ |}.

Definition conditionalGET (path etag : string) : http.Request :=
  {| http.Method := "GET"; http.URL_Path := path;
     http.Header := {[ "If-None-Match" := [etag] ]} |}.

Definition thumbnails : main.HandlerConfig :=
  {| main.Port := "8080"; main.Auth := false; main.Versioned := false;
     main.Prefix := "und:"; main.Datastream := "thumbnail";
     main.Datastream_id := ["thumbnail"; "default"] |}.

Definition fallback : main.HandlerConfig :=
  {| main.Port := "8080"; main.Auth := true; main.Versioned := true;
     main.Prefix := "und:"; main.Datastream := "content";
     main.Datastream_id := [] |}.

Definition downloads : main.HandlerConfig :=
  {| main.Port := "8080"; main.Auth := true; main.Versioned := true;
     main.Prefix := "und:"; main.Datastream := "content";
     main.Datastream_id := ["content"] |}.

(** An environment for [main]: an operating system that opens every
    file, a configuration file with two handlers, and stand-ins for the
    constructors of the packages outside the sources. *)
Definition openAny : string -> gset main.File -> option main.File :=
  fun _ opened => Some (fresh opened).

Definition config : main.Config :=
  {| main.General_ :=
       {| main.Log_filename := ""; main.Fedora_addr := "http://localhost:8983/fedora/";
          main.Admin := ["admin"] |};
     main.Pubtkt_ := {| main.Key_file := "" |};
     main.Rails_ := {| main.Secret := ""; main.Cookie := ""; main.Database := "" |};
     main.Handler := [("thumbs", thumbnails); ("files", downloads)] |}.

Definition readConfig : string -> main.Config * option string :=
  fun _ => (config, None).

Definition onlyFlags : main.Vars :=
  {| main.logfilename := ""; main.pubtktKey := "";
     main.fedoraAddr := "http://localhost:8983/fedora/";
     main.secret := ""; main.database := ""; main.cookieName := "";
     main.configFile := "" |}.

Definition withConfigFile : main.Vars :=
  {| main.logfilename := "ignored.log"; main.pubtktKey := "ignored.pem";
     main.fedoraAddr := ""; main.secret := ""; main.database := "";
     main.cookieName := ""; main.configFile := "disadis.gcfg" |}.

Definition start : main.Process :=
  {| main.output := None; main.openFiles := ∅ |}.

Definition runMain (flags : main.Vars) : main.Outcome :=
  main.main openAny readConfig string (fun key => main.Running key)
    string (fun _ dsn => (dsn, None)) (fun s _ _ => s)
    (fun _ _ => repository) (fun _ _ _ _ => always auth.AuthAllow)
    flags start.

End Sample.

Import disseminator Spec.

(** ** Facts about the library functions *)

Section StringFacts.

Lemma HasPrefix_byte (a c : ascii) (s : string) :
  strings.HasPrefix (String a s) (String c EmptyString) = Ascii.eqb a c.
Proof.
  unfold strings.HasPrefix; simpl.
  destruct (ascii_dec c a) as [->|Hne].
  - rewrite Ascii.eqb_refl. by destruct s.
  - symmetry. apply Ascii.eqb_neq. congruence.
Qed.

Lemma lastIndexFrom_absent (c : ascii) (s : string) (pos best : Z) :
  hasByte c s = false ->
  strings.lastIndexFrom pos best s (String c EmptyString) = best.
Proof.
  revert pos best. induction s as [|a s IH]; intros pos best Hs.
  - reflexivity.
  - simpl in Hs. apply orb_false_iff in Hs as [Ha Hs].
    cbn [strings.lastIndexFrom]. rewrite HasPrefix_byte, Ha. by apply IH.
Qed.

Lemma lastIndexFrom_last (c : ascii) (base suf : string) (pos best : Z) :
  hasByte c suf = false ->
  strings.lastIndexFrom pos best (base ++ String c suf) (String c EmptyString)
  = (pos + Z.of_nat (String.length base))%Z.
Proof.
  intros Hsuf. revert pos best.
  induction base as [|a base IH]; intros pos best.
  - change (EmptyString ++ String c suf) with (String c suf).
    cbn [strings.lastIndexFrom String.length].
    rewrite HasPrefix_byte, Ascii.eqb_refl, lastIndexFrom_absent by done. lia.
  - change (String a base ++ String c suf) with (String a (base ++ String c suf)).
    cbn [strings.lastIndexFrom String.length].
    rewrite IH. lia.
Qed.

(** Every string either lacks [c] or splits at its last [c]. *)
Lemma last_byte_cases (c : ascii) (s : string) :
  hasByte c s = false \/
  exists base suf, s = base ++ String c suf /\ hasByte c suf = false.
Proof.
  induction s as [|a s [IH|(base & suf & -> & Hsuf)]].
  - by left.
  - destruct (Ascii.eqb a c) eqn:Hac.
    + right. exists EmptyString, s. apply Ascii.eqb_eq in Hac as ->. done.
    + left. simpl. by rewrite Hac, IH.
  - right. by exists (String a base), suf.
Qed.

Lemma LastIndex_absent (s : string) :
  hasByte "." s = false -> strings.LastIndex s "." = (-1)%Z.
Proof. apply lastIndexFrom_absent. Qed.

Lemma LastIndex_last (base suf : string) :
  hasByte "." suf = false ->
  strings.LastIndex (base ++ "." ++ suf) "." = Z.of_nat (String.length base)
  /\ strings.sliceFrom (Z.to_nat (Z.of_nat (String.length base) + 1))
       (base ++ "." ++ suf) = suf.
Proof.
  intros Hsuf. split.
  - unfold strings.LastIndex. change ("." ++ suf) with (String "." suf).
    rewrite lastIndexFrom_last by done. lia.
  - replace (Z.to_nat _) with (S (String.length base)) by lia.
    change ("." ++ suf) with (String "." suf).
    clear Hsuf. induction base; simpl; auto.
Qed.

(** [SplitN] with [n = 2] yields one or two components. *)
Lemma SplitN_2_cases (s sep : string) :
  strings.SplitN s sep 2 = [s] \/
  exists c0 c1, strings.SplitN s sep 2 = [c0; c1].
Proof.
  unfold strings.SplitN. destruct (strings.Index s sep); eauto.
Qed.

Lemma pathComponents_cases (r : http.Request) :
  (exists c0, pathComponents r = [c0]) \/
  (exists c0 c1, pathComponents r = [c0; c1]).
Proof.
  unfold pathComponents.
  destruct (SplitN_2_cases
    (strings.TrimSuffix (strings.TrimPrefix (http.URL_Path r) "/") "/") "/")
    as [->|(c0 & c1 & ->)]; eauto.
Qed.

End StringFacts.

(** ** The stages of [ServeHTTP], one equation each *)

Section Stages.

Variable dh : DownloadHandler.
Variable r : http.Request.

Lemma bind_eq {A B} (m : Handler A) (f : A -> Handler B) (σ : World) :
  (m ≫= f) σ =
  match m σ with
  | (Next a, σ') => f a σ'
  | (Returned, σ') => (Returned, σ')
  | (Panicked, σ') => (Panicked, σ')
  end.
Proof. reflexivity. Qed.

Let entered : World := Spec.entered r.

Lemma methodGate_GET (σ : World) :
  http.Method r = "GET" -> methodGate r σ = (Next tt, σ).
Proof. intros H. unfold methodGate. by rewrite H. Qed.

Lemma methodGate_other (σ : World) :
  http.Method r <> "GET" ->
  methodGate r σ = (Returned, (notFound σ).2).
Proof.
  intros H. unfold methodGate.
  destruct (String.eqb_spec (http.Method r) "GET"); [done|reflexivity].
Qed.

Lemma index_identifier (σ : World) :
  exists c0, index (pathComponents r) 0 σ = (Next c0, σ)
             /\ identifier dh r = Prefix dh ++ c0.
Proof.
  unfold identifier.
  destruct (pathComponents_cases r) as [(c0 & ->)|(c0 & c1 & ->)];
    by exists c0.
Qed.

(** A GET request runs the authorization stage on the identifier and
    then the version stages. *)
Lemma ServeHTTP_GET :
  http.Method r = "GET" ->
  run dh r =
  (checkAuth dh r (identifier dh r) ;;
   version ← parseVersion dh (pathComponents r) ;
   serveVersion dh r (identifier dh r) version) entered.
Proof.
  intros HGET. unfold run, ServeHTTP.
  rewrite bind_eq. change (log _ newWorld) with (Next tt, entered).
  cbv beta iota. rewrite bind_eq, (methodGate_GET _ HGET). cbv zeta.
  destruct (index_identifier entered) as (c0 & Hc0 & ->).
  by rewrite bind_eq, Hc0.
Qed.

Lemma checkAuth_passes :
  authPasses dh r ->
  checkAuth dh r (identifier dh r) entered = (Next tt, afterAuth dh r).
Proof.
  unfold authPasses, checkAuth, afterAuth.
  destruct (Auth dh) as [a|]; [|done].
  intros Hallow. by rewrite bind_eq, Hallow.
Qed.

Lemma parseVersion_accepted (version : Z) (σ : World) :
  versionAccepted dh r version ->
  parseVersion dh (pathComponents r) σ = (Next version, σ).
Proof.
  intros [(c0 & -> & ->)|(c0 & c1 & -> & Hv & Hatoi & Hpos)]; [done|].
  unfold parseVersion. cbn [length]. rewrite Hv, bind_eq.
  cbn [index lookup list_lookup]. simpl. rewrite Hatoi.
  apply Z.leb_le in Hpos. by rewrite Hpos.
Qed.

Lemma parseVersion_rejected (c0 c1 : string) (σ : World) :
  pathComponents r = [c0; c1] ->
  Versioned dh = false \/ ~ parsesNonNegative c1 ->
  parseVersion dh (pathComponents r) σ = (Returned, (notFound σ).2).
Proof.
  intros -> Hbad. unfold parseVersion. cbn [length].
  destruct (Versioned dh); [|done].
  destruct Hbad as [|Hbad]; [done|].
  rewrite bind_eq. simpl. unfold parsesNonNegative in Hbad.
  destruct (strconv.Atoi c1) as [version [e|]]; [done|].
  destruct (Z.leb_spec 0 version); [|done].
  exfalso. apply Hbad. by split.
Qed.

(** A request that reaches the metadata fetch runs [serveVersion]. *)
Lemma run_reaches (version : Z) :
  reachesMetadataFetch dh r version ->
  run dh r = serveVersion dh r (identifier dh r) version (afterAuth dh r).
Proof.
  intros (HGET & Hauth & Hver).
  rewrite (ServeHTTP_GET HGET), bind_eq, (checkAuth_passes Hauth).
  by rewrite bind_eq, (parseVersion_accepted _ _ Hver).
Qed.

Lemma fetchInfo_ok (pid : string) (dsinfo : fedora.DsInfo) (σ : World) :
  fedora.GetDatastreamInfo (Fedora dh) pid (Ds dh) = (dsinfo, None) ->
  fetchInfo dh pid σ = (Next dsinfo, (call (CallGetDatastreamInfo pid (Ds dh)) σ).2).
Proof. intros H. unfold fetchInfo. by rewrite bind_eq, H. Qed.

Lemma fetchInfo_error (pid : string) (dsinfo : fedora.DsInfo)
    (e : fedora.error) (σ : World) :
  fedora.GetDatastreamInfo (Fedora dh) pid (Ds dh) = (dsinfo, Some e) ->
  fetchInfo dh pid σ =
  (Returned,
   (notFound (log [LogFedoraError e]
                (call (CallGetDatastreamInfo pid (Ds dh)) σ).2).2).2).
Proof. intros H. unfold fetchInfo. by rewrite bind_eq, H. Qed.

Lemma currentVersion_numeric (info : fedora.DsInfo) (n : Z) (σ : World) :
  numericSuffix (fedora.VersionID info) n ->
  currentVersion dh info σ = (Next n, σ).
Proof.
  intros (base & suf & Hvid & Hsuf & Hatoi). unfold currentVersion.
  rewrite Hvid. destruct (LastIndex_last base suf Hsuf) as [-> ->].
  destruct (Z.eqb_spec (Z.of_nat (String.length base)) (-1)); [lia|].
  by rewrite Hatoi.
Qed.

Lemma currentVersion_unparsable (info : fedora.DsInfo) (σ : World) :
  unparsableVersionID (fedora.VersionID info) ->
  exists line, currentVersion dh info σ = (Next (-1)%Z, (log line σ).2).
Proof.
  intros [Hno|(base & suf & Hvid & Hsuf & Hatoi)]; unfold currentVersion.
  - rewrite (LastIndex_absent _ Hno). simpl. eauto.
  - rewrite Hvid. destruct (LastIndex_last base suf Hsuf) as [-> ->].
    destruct (Z.eqb_spec (Z.of_nat (String.length base)) (-1)); [lia|].
    destruct (strconv.Atoi suf) as [v [e|]]; [|done].
    rewrite bind_eq. simpl. eauto.
Qed.

(** Every version identifier has a numeric suffix or is unparsable. *)
Lemma versionID_cases (vid : string) :
  unparsableVersionID vid \/ exists n, numericSuffix vid n.
Proof.
  destruct (last_byte_cases "." vid) as [Hno|(base & suf & -> & Hsuf)].
  - left. by left.
  - destruct (strconv.Atoi suf) as [n [e|]] eqn:Hatoi.
    + left. right. exists base, suf. by rewrite Hatoi.
    + right. exists n, base, suf. done.
Qed.

Lemma etagLoop_match (etags : list string) (dsinfo : fedora.DsInfo) (σ : World) :
  fedora.VersionID dsinfo ∈ etags ->
  etagLoop etags dsinfo σ =
  (Returned,
   (respond (http.WriteHeader http.StatusNotModified)
      (respond (http.setHeader "ETag" (fedora.VersionID dsinfo)) σ).2).2).
Proof.
  induction etags as [|etag rest IH]; intros Hin.
  - by apply elem_of_nil in Hin.
  - cbn [etagLoop].
    destruct (String.eqb_spec etag (fedora.VersionID dsinfo)) as [_|Hne].
    + reflexivity.
    + apply IH. apply elem_of_cons in Hin as [Heq|Hin]; [congruence|done].
Qed.

End Stages.

(** ** The stages after the metadata fetch *)

Section Delivery.

Variable dh : DownloadHandler.

Lemma checkVersion_current (version : Z) (dsinfo : fedora.DsInfo) (σ : World) :
  (version < 0)%Z \/ numericSuffix (fedora.VersionID dsinfo) version ->
  checkVersion dh version dsinfo σ = (Next tt, σ).
Proof.
  intros Hv. unfold checkVersion.
  destruct (Z.leb_spec 0 version) as [Hpos|]; [|done].
  destruct Hv as [|Hnum]; [lia|].
  rewrite bind_eq, (currentVersion_numeric _ _ _ _ Hnum).
  by rewrite Z.eqb_refl.
Qed.

Lemma checkVersion_mismatch (version : Z) (dsinfo : fedora.DsInfo) (σ : World) :
  (0 <= version)%Z ->
  ~ numericSuffix (fedora.VersionID dsinfo) version ->
  exists σ',
    checkVersion dh version dsinfo σ = (Returned, σ') /\
    w σ' = http.Error "403 Forbidden" http.StatusForbidden (w σ) /\
    calls σ' = calls σ.
Proof.
  intros Hpos Hnot. unfold checkVersion.
  apply Z.leb_le in Hpos as Hleb. rewrite Hleb, bind_eq.
  destruct (versionID_cases (fedora.VersionID dsinfo)) as [Hbad|[n Hnum]].
  - destruct (currentVersion_unparsable dh _ σ Hbad) as [line ->].
    destruct (Z.eqb_spec version (-1)); [lia|]. simpl. eauto.
  - rewrite (currentVersion_numeric _ _ _ _ Hnum).
    destruct (Z.eqb_spec version n) as [->|]; [done|]. simpl. eauto.
Qed.

(** The loop over the validators either finds none equal to the
    version identifier and changes nothing, or answers 304. *)
Lemma etagLoop_cases (etags : list string) (dsinfo : fedora.DsInfo) :
  (forall σ, etagLoop etags dsinfo σ = (Next tt, σ)) \/
  (forall σ, etagLoop etags dsinfo σ =
     (Returned,
      (respond (http.WriteHeader http.StatusNotModified)
         (respond (http.setHeader "ETag" (fedora.VersionID dsinfo)) σ).2).2)).
Proof.
  induction etags as [|etag rest IH]; [by left|].
  cbn [etagLoop]. destruct (etag =? fedora.VersionID dsinfo)%string; [|done].
  by right.
Qed.

Lemma etagMatch_cases (r : http.Request) (dsinfo : fedora.DsInfo) :
  (forall σ, etagMatch r dsinfo σ = (Next tt, σ)) \/
  (forall σ, etagMatch r dsinfo σ =
     (Returned,
      (respond (http.WriteHeader http.StatusNotModified)
         (respond (http.setHeader "ETag" (fedora.VersionID dsinfo)) σ).2).2)).
Proof.
  unfold etagMatch. destruct (http.Header r !! "If-None-Match") as [etags|].
  - apply etagLoop_cases.
  - by left.
Qed.

(** A successful content fetch on a fresh writer: status 200, the six
    headers, the bytes of the source, which is closed afterwards. *)
Lemma sendContent_ok (pid content : string) (dsinfo info : fedora.DsInfo)
    (σ : World) :
  fedora.GetDatastream (Fedora dh) pid (Ds dh) = (content, info, None) ->
  w σ = http.newResponseWriter ->
  http.finishRequest (w (sendContent dh pid dsinfo σ).2) =
    {| http.StatusCode := 200;
       http.ResponseHeader := contentHeaders dsinfo info;
       http.Body := content |} /\
  calls (sendContent dh pid dsinfo σ).2 =
    (calls σ ++ [CallGetDatastream pid (Ds dh); ContentClose])%list.
Proof.
  intros Hget Hw. unfold sendContent. rewrite bind_eq.
  cbn [call]. rewrite Hget. destruct σ as [w0 cs ls]; simpl in Hw; subst w0.
  split.
  - destruct content; reflexivity.
  - simpl. by rewrite <- app_assoc.
Qed.

(** A failed content fetch answers 404 or 500. *)
Lemma sendContent_error (pid content : string) (dsinfo info : fedora.DsInfo)
    (e : fedora.error) (σ : World) :
  fedora.GetDatastream (Fedora dh) pid (Ds dh) = (content, info, Some e) ->
  w σ = http.newResponseWriter ->
  http.StatusCode (http.finishRequest (w (sendContent dh pid dsinfo σ).2)) =
    match e with fedora.FedoraNotFound => 404%Z | _ => 500%Z end.
Proof.
  intros Hget Hw. unfold sendContent. rewrite bind_eq.
  cbn [call]. rewrite Hget. destruct σ as [w0 cs ls]; simpl in Hw; subst w0.
  by destruct e.
Qed.

(** The writer the content stage leaves depends on the writer it
    starts from only. *)
Lemma sendContent_writer (pid : string) (dsinfo : fedora.DsInfo) (σ1 σ2 : World) :
  w σ1 = w σ2 ->
  w (sendContent dh pid dsinfo σ1).2 = w (sendContent dh pid dsinfo σ2).2.
Proof.
  intros Hw. unfold sendContent. rewrite !bind_eq. cbn [call].
  destruct (fedora.GetDatastream (Fedora dh) pid (Ds dh)) as [[content info] [e|]].
  - destruct e; simpl; by rewrite Hw.
  - simpl. by rewrite Hw.
Qed.

(** Conditional check and content stage together, likewise. *)
Lemma deliver_writer (r r' : http.Request) (pid : string)
    (dsinfo : fedora.DsInfo) (σ1 σ2 : World) :
  http.Header r' = http.Header r ->
  w σ1 = w σ2 ->
  w ((etagMatch r dsinfo ;; sendContent dh pid dsinfo) σ1).2 =
  w ((etagMatch r' dsinfo ;; sendContent dh pid dsinfo) σ2).2.
Proof.
  intros Hhdr Hw. rewrite !bind_eq.
  assert (Hsame : etagMatch r' dsinfo = etagMatch r dsinfo)
    by (unfold etagMatch; by rewrite Hhdr).
  rewrite Hsame.
  destruct (etagMatch_cases r dsinfo) as [Hnext|Hret]; rewrite ?Hnext, ?Hret.
  - by apply sendContent_writer.
  - simpl. by rewrite Hw.
Qed.

End Delivery.

(** ** The ways a request ends before the metadata fetch *)

Section Refusals.

Variable dh : DownloadHandler.
Variable r : http.Request.

Lemma run_non_GET :
  http.Method r <> "GET" -> run dh r = (Returned, (notFound (entered r)).2).
Proof.
  intros Hmethod. unfold run, ServeHTTP. rewrite bind_eq.
  change (log _ newWorld) with (Next tt, entered r). cbv beta iota.
  by rewrite bind_eq, (methodGate_other _ _ Hmethod).
Qed.

Lemma run_auth_refused (a : auth.HydraAuth) :
  http.Method r = "GET" ->
  Auth dh = Some a ->
  auth.Check a r (identifier dh r) <> auth.AuthAllow ->
  run dh r =
  (Returned,
   (respond (http.Error (refusal (auth.Check a r (identifier dh r))).1
                        (refusal (auth.Check a r (identifier dh r))).2)
      (call (AuthCheck r (identifier dh r)) (entered r)).2).2).
Proof.
  intros HGET Ha Hd. rewrite (ServeHTTP_GET _ _ HGET), bind_eq.
  unfold checkAuth. rewrite Ha, bind_eq. cbn [call].
  by destruct (auth.Check a r (identifier dh r)).
Qed.

Lemma run_version_rejected (c0 c1 : string) :
  http.Method r = "GET" ->
  authPasses dh r ->
  pathComponents r = [c0; c1] ->
  Versioned dh = false \/ ~ parsesNonNegative c1 ->
  run dh r = (Returned, (notFound (afterAuth dh r)).2).
Proof.
  intros HGET Hauth Hcomp Hbad.
  rewrite (ServeHTTP_GET _ _ HGET), bind_eq, (checkAuth_passes _ _ Hauth).
  by rewrite bind_eq, (parseVersion_rejected _ _ _ _ _ Hcomp Hbad).
Qed.

Lemma parsesNonNegative_dec (s : string) :
  (exists n, strconv.Atoi s = (n, None) /\ (0 <= n)%Z) \/ ~ parsesNonNegative s.
Proof.
  unfold parsesNonNegative.
  destruct (strconv.Atoi s) as [n [e|]]; simpl.
  - right. by intros [? _].
  - destruct (Z.le_gt_cases 0 n); [left; eauto|right; lia].
Qed.

(** The version segment is accepted or rejected. *)
Lemma version_cases :
  (exists version, versionAccepted dh r version) \/
  (exists c0 c1, pathComponents r = [c0; c1] /\
     (Versioned dh = false \/ ~ parsesNonNegative c1)).
Proof.
  destruct (pathComponents_cases r) as [(c0 & Hc)|(c0 & c1 & Hc)].
  - left. exists (-1)%Z. left. eauto.
  - destruct (Versioned dh) eqn:Hv; [|right; eauto].
    destruct (parsesNonNegative_dec c1) as [(n & Hn & Hpos)|Hbad].
    + left. exists n. right. exists c0, c1. done.
    + right. eauto.
Qed.

Lemma auth_cases :
  authPasses dh r \/
  exists a, Auth dh = Some a /\ auth.Check a r (identifier dh r) <> auth.AuthAllow.
Proof.
  unfold authPasses. destruct (Auth dh) as [a|]; [|by left].
  destruct (auth.Check a r (identifier dh r)) eqn:Hd; eauto;
    right; exists a; by rewrite Hd.
Qed.

End Refusals.

Lemma numericSuffix_unique (vid : string) (n m : Z) :
  numericSuffix vid n -> numericSuffix vid m -> n = m.
Proof.
  intros Hn Hm.
  pose (info := {| fedora.Label := ""; fedora.Type_ := ""; fedora.Length := "";
                   fedora.VersionID := vid |}).
  pose proof (currentVersion_numeric Sample.versioned info n newWorld Hn) as H1.
  pose proof (currentVersion_numeric Sample.versioned info m newWorld Hm) as H2.
  congruence.
Qed.

Lemma unparsable_not_numeric (vid : string) (n : Z) :
  unparsableVersionID vid -> numericSuffix vid n -> n = (-1)%Z.
Proof.
  intros Hbad Hn.
  pose (info := {| fedora.Label := ""; fedora.Type_ := ""; fedora.Length := "";
                   fedora.VersionID := vid |}).
  pose proof (currentVersion_numeric Sample.versioned info n newWorld Hn) as H1.
  destruct (currentVersion_unparsable Sample.versioned info newWorld Hbad) as [l H2].
  congruence.
Qed.

Lemma numericSuffix_dec (vid : string) (n : Z) :
  (0 <= n)%Z -> numericSuffix vid n \/ ~ numericSuffix vid n.
Proof.
  intros Hpos. destruct (versionID_cases vid) as [Hbad|[m Hm]].
  - right. intros Hn. pose proof (unparsable_not_numeric _ _ Hbad Hn). lia.
  - destruct (Z.eq_dec n m) as [->|Hne]; [by left|].
    right. intros Hn. by pose proof (numericSuffix_unique _ _ _ Hn Hm).
Qed.

(** ** Calls are only ever appended *)

Create HintDb framed.

Section Framed.

Lemma framed_mret {A} (a : A) : framed (mret a).
Proof. by intros cs σ. Qed.

Lemma framed_return {A} : framed (@return_ A).
Proof. by intros cs σ. Qed.

Lemma framed_panic {A} : framed (@panic A).
Proof. by intros cs σ. Qed.

Lemma framed_respond f : framed (respond f).
Proof. by intros cs σ. Qed.

Lemma framed_log args : framed (log args).
Proof. by intros cs σ. Qed.

Lemma framed_call c : framed (call c).
Proof.
  intros cs σ. unfold call, prependCalls. cbn [fst snd w calls logged].
  by rewrite app_assoc.
Qed.

Lemma framed_bind {A B} (m : Handler A) (f : A -> Handler B) :
  framed m -> (forall a, framed (f a)) -> framed (m ≫= f).
Proof.
  intros Hm Hf cs σ. rewrite !bind_eq, Hm.
  destruct (m σ) as [[a| |] σ']; cbn [fst snd]; [apply Hf|done..].
Qed.

Hint Resolve framed_mret framed_return framed_panic framed_respond
  framed_log framed_call : framed.

Ltac framed :=
  repeat first
    [ solve [eauto with framed]
    | apply framed_bind; [|intros ?] ].

Lemma framed_notFound : framed notFound.
Proof. apply framed_respond. Qed.
Hint Resolve framed_notFound : framed.

Lemma framed_index components i : framed (index components i).
Proof. unfold index. destruct (components !! i); framed. Qed.
Hint Resolve framed_index : framed.

Lemma framed_parseVersion dh components : framed (parseVersion dh components).
Proof.
  unfold parseVersion.
  destruct (length components) as [|[|[|n]]]; framed.
  destruct (Versioned dh); framed.
  destruct (strconv.Atoi _) as [version [e|]]; framed.
  destruct (0 <=? version)%Z; framed.
Qed.

Lemma framed_currentVersion dh info : framed (currentVersion dh info).
Proof.
  unfold currentVersion. destruct (_ =? -1)%Z; framed.
  destruct (strconv.Atoi _) as [version [e|]]; framed.
Qed.
Hint Resolve framed_currentVersion : framed.

Lemma framed_fetchInfo dh pid : framed (fetchInfo dh pid).
Proof.
  unfold fetchInfo. framed.
  destruct (fedora.GetDatastreamInfo _ _ _) as [dsinfo [e|]]; framed.
Qed.

Lemma framed_checkVersion dh version dsinfo : framed (checkVersion dh version dsinfo).
Proof.
  unfold checkVersion. destruct (0 <=? version)%Z; framed.
  destruct (negb _); framed.
Qed.

Lemma framed_etagLoop etags dsinfo : framed (etagLoop etags dsinfo).
Proof.
  induction etags as [|etag rest IH]; cbn [etagLoop]; framed.
  destruct (etag =? _)%string; framed.
Qed.

Lemma framed_etagMatch r dsinfo : framed (etagMatch r dsinfo).
Proof.
  unfold etagMatch. destruct (http.Header r !! _); framed.
  apply framed_etagLoop.
Qed.

Lemma framed_sendContent dh pid dsinfo : framed (sendContent dh pid dsinfo).
Proof.
  unfold sendContent. framed.
  destruct (fedora.GetDatastream _ _ _) as [[content info] [[|msg]|]]; framed.
Qed.

Hint Resolve framed_fetchInfo framed_checkVersion framed_etagMatch
  framed_sendContent : framed.

Lemma framed_serveVersion dh r pid version : framed (serveVersion dh r pid version).
Proof. unfold serveVersion. framed. Qed.

End Framed.

Lemma framed_calls {A} (m : Handler A) (σ : World) :
  framed m ->
  calls (m σ).2 =
    (calls σ ++ calls (m {| w := w σ; calls := []; logged := logged σ |}).2)%list /\
  w (m σ).2 = w (m {| w := w σ; calls := []; logged := logged σ |}).2.
Proof.
  intros Hm.
  pose proof (Hm (calls σ) {| w := w σ; calls := []; logged := logged σ |}) as H.
  unfold prependCalls in H at 1. cbn [w calls logged] in H.
  rewrite app_nil_r in H. destruct σ as [w0 cs ls]. cbn [w calls logged] in *.
  by rewrite H.
Qed.

(** ** Reaching the authorization stage and the metadata fetch *)

(** An allowed request proceeds as on the handler without checker. *)
Lemma run_auth_allowed (dh : DownloadHandler) (r : http.Request)
    (a : auth.HydraAuth) :
  http.Method r = "GET" ->
  Auth dh = Some a ->
  auth.Check a r (identifier dh r) = auth.AuthAllow ->
  response dh r = response (withoutAuth dh) r /\
  callsMade dh r = AuthCheck r (identifier dh r) :: callsMade (withoutAuth dh) r.
Proof.
  intros HGET Ha Hd.
  assert (Hauth : authPasses dh r) by (unfold authPasses; by rewrite Ha).
  set (K := version ← parseVersion dh (pathComponents r) ;
            serveVersion dh r (identifier dh r) version).
  assert (HK : framed K).
  { apply framed_bind; [apply framed_parseVersion|intros v; apply framed_serveVersion]. }
  assert (Hrun : run dh r = K (prependCalls [AuthCheck r (identifier dh r)] (entered r))).
  { rewrite (ServeHTTP_GET _ _ HGET), bind_eq, (checkAuth_passes _ _ Hauth).
    unfold afterAuth. by rewrite Ha. }
  assert (Hrun' : run (withoutAuth dh) r = K (entered r)).
  { by rewrite (ServeHTTP_GET (withoutAuth dh) _ HGET), bind_eq. }
  unfold response, callsMade. rewrite Hrun, Hrun', HK. by split.
Qed.

(** The checker is the first collaborator a GET request calls. *)
Lemma authorization_first_call (dh : DownloadHandler) (r : http.Request)
    (a : auth.HydraAuth) :
  Auth dh = Some a ->
  http.Method r = "GET" ->
  exists rest, callsMade dh r = AuthCheck r (identifier dh r) :: rest.
Proof.
  intros Ha HGET.
  destruct (auth.Check a r (identifier dh r)) eqn:Hd.
  1,2,4: unfold callsMade;
    rewrite (run_auth_refused dh r a HGET Ha) by (by rewrite Hd); by eexists.
  destruct (run_auth_allowed dh r a HGET Ha Hd) as [_ ->]. by eexists.
Qed.

(** A request that reaches the metadata fetch calls [GetDatastreamInfo]
    for its identifier, right after the checker if there is one. *)
Lemma reaches_calls (dh : DownloadHandler) (r : http.Request) (version : Z) :
  reachesMetadataFetch dh r version ->
  exists rest,
    callsMade dh r =
      (calls (afterAuth dh r)
         ++ CallGetDatastreamInfo (identifier dh r) (Ds dh) :: rest)%list.
Proof.
  intros Hreach. unfold callsMade.
  rewrite (run_reaches _ _ _ Hreach). unfold serveVersion.
  rewrite bind_eq. unfold fetchInfo at 1. rewrite bind_eq. cbn [call].
  set (σ1 := {| w := w (afterAuth dh r);
                calls := calls (afterAuth dh r)
                           ++ [CallGetDatastreamInfo (identifier dh r) (Ds dh)];
                logged := logged (afterAuth dh r) |}).
  destruct (fedora.GetDatastreamInfo (Fedora dh) (identifier dh r) (Ds dh))
    as [dsinfo [e|]].
  - exists []. reflexivity.
  - cbn [mret Handler_ret].
    set (K := checkVersion dh version dsinfo ;; etagMatch r dsinfo ;;
              sendContent dh (identifier dh r) dsinfo).
    assert (HK : framed K).
    { apply framed_bind; [apply framed_checkVersion|intros _].
      apply framed_bind; [apply framed_etagMatch|intros _].
      apply framed_sendContent. }
    destruct (framed_calls K σ1 HK) as [Hcalls _].
    eexists. rewrite Hcalls. unfold σ1 at 1. cbn [calls].
    rewrite <- app_assoc. reflexivity.
Qed.

(** The metadata is fetched exactly when the request is a GET that the
    authorization stage lets through and whose version segment, if any,
    is accepted. *)
Lemma fetchesMetadata_reaches (dh : DownloadHandler) (r : http.Request) :
  fetchesMetadata dh r <-> exists version, reachesMetadataFetch dh r version.
Proof.
  unfold fetchesMetadata. split.
  - intros Hin.
    destruct (String.eqb_spec (http.Method r) "GET") as [HGET|Hother].
    2:{ unfold callsMade in Hin. rewrite (run_non_GET dh r Hother) in Hin.
        by apply elem_of_nil in Hin. }
    destruct (auth_cases dh r) as [Hauth|(a & Ha & Hd)].
    2:{ unfold callsMade in Hin. rewrite (run_auth_refused dh r a HGET Ha Hd) in Hin.
        cbn in Hin. apply elem_of_cons in Hin as [Hin|Hin]; [discriminate|].
        by apply elem_of_nil in Hin. }
    destruct (version_cases dh r) as [(version & Hver)|(c0 & c1 & Hcomp & Hbad)].
    { by exists version. }
    unfold callsMade in Hin.
    rewrite (run_version_rejected dh r c0 c1 HGET Hauth Hcomp Hbad) in Hin.
    unfold afterAuth in Hin. cbn in Hin.
    destruct (Auth dh).
    + apply elem_of_cons in Hin as [Hin|Hin]; [discriminate|].
      by apply elem_of_nil in Hin.
    + by apply elem_of_nil in Hin.
  - intros [version Hreach].
    destruct (reaches_calls dh r version Hreach) as [rest ->].
    apply elem_of_app. right. apply elem_of_cons. by left.
Qed.

(** The metadata [dsinfo] was fetched for a request with a validated
    version token. *)
Lemma fetched_with_token (dh : DownloadHandler) (r : http.Request)
    (c0 c1 : string) (token : Z) (dsinfo : fedora.DsInfo) :
  pathComponents r = [c0; c1] ->
  strconv.Atoi c1 = (token, None) ->
  fetchedMetadata dh r dsinfo ->
  reachesMetadataFetch dh r token.
Proof.
  intros Hcomp Hatoi [Hfetch _].
  apply fetchesMetadata_reaches in Hfetch as [version (HGET & Hauth & Hver)].
  split; [done|]. split; [done|].
  destruct Hver as [(c & Hc & _)|(c & c' & Hc & Hv & Hatoi' & Hpos)];
    rewrite Hcomp in Hc; [discriminate|].
  injection Hc as <- <-. rewrite Hatoi in Hatoi'. injection Hatoi' as <-.
  right. by exists c0, c1.
Qed.

(** The metadata was fetched for a request without version segment. *)
Lemma fetched_without_token (dh : DownloadHandler) (r : http.Request) (c0 : string) :
  pathComponents r = [c0] ->
  fetchesMetadata dh r ->
  reachesMetadataFetch dh r (-1).
Proof.
  intros Hcomp Hfetch.
  apply fetchesMetadata_reaches in Hfetch as [version (HGET & Hauth & Hver)].
  split; [done|]. split; [done|].
  destruct Hver as [(c & Hc & _)|(c & c' & Hc & _)];
    rewrite Hcomp in Hc; [|discriminate].
  left. by exists c0.
Qed.

(** ** The method gate *)

(** C7: a request whose method is not GET is answered 404 Not Found at
    once: whatever the handler's configuration, the path and the
    collaborators, the response is that of [notFound] on a fresh writer
    and no collaborator is called. *)
Theorem non_GET_is_not_found (dh : DownloadHandler) (r : http.Request) :
  http.Method r <> "GET" ->
  status dh r = 404%Z /\
  status dh r <> 405%Z /\
  callsMade dh r = [] /\
  response dh r =
    http.finishRequest (http.Error "404 Not Found" 404 http.newResponseWriter).
Proof.
  intros Hmethod. unfold status, callsMade, response.
  rewrite (run_non_GET dh r Hmethod). by repeat split.
Qed.

Lemma non_GET_is_not_found_witness :
  status (Sample.guarded auth.AuthAllow) (Sample.POST "/abc123") = 404%Z.
Proof.
  exact (proj1 (non_GET_is_not_found (Sample.guarded auth.AuthAllow)
                  (Sample.POST "/abc123") ltac:(discriminate))).
Defined.

(** ** Paths made of separators *)

Section Separators.

Lemma append_empty (s : string) : s ++ "" = s.
Proof.
  induction s as [|a s IH]; [done|].
  change (String a (s ++ "") = String a s). by rewrite IH.
Qed.

Lemma length_separators (n : nat) : String.length (separators n) = n.
Proof. induction n; simpl; congruence. Qed.

Lemma sliceFrom_separators (n : nat) :
  strings.sliceFrom n (separators (S n)) = "/".
Proof. induction n; [done|]. exact IHn. Qed.

Lemma sliceTo_separators (n : nat) :
  strings.sliceTo n (separators (S n)) = separators n.
Proof.
  induction n; [done|].
  change (strings.sliceTo (S n) (separators (S (S n))))
    with (String "/" (strings.sliceTo n (separators (S n)))).
  by rewrite IHn.
Qed.

Lemma TrimPrefix_separators (n : nat) :
  strings.TrimPrefix (separators (S n)) "/" = separators n.
Proof. unfold strings.TrimPrefix, strings.HasPrefix. simpl. by destruct (separators n). Qed.

Lemma TrimSuffix_separators (n : nat) :
  strings.TrimSuffix (separators (S n)) "/" = separators n.
Proof.
  unfold strings.TrimSuffix, strings.HasSuffix.
  rewrite length_separators.
  change (String.length "/") with 1%nat.
  replace (S n - 1)%nat with n by lia.
  rewrite sliceFrom_separators, sliceTo_separators.
  by destruct n.
Qed.

Lemma SplitN_separators (n : nat) :
  strings.SplitN (separators (S n)) "/" 2 = [""; separators n].
Proof.
  unfold strings.SplitN. cbn [separators strings.Index].
  unfold strings.HasPrefix. simpl. by destruct (separators n).
Qed.

Lemma Atoi_separators (n : nat) : ~ parsesNonNegative (separators n).
Proof. intros [Herr _]. by destruct n. Qed.

(** The components of a path of [n] separators. *)
Lemma pathComponents_separators (r : http.Request) (n : nat) :
  http.URL_Path r = separators n ->
  pathComponents r =
    if (n <=? 2)%nat then [""] else [""; separators (n - 3)].
Proof.
  intros Hpath. unfold pathComponents. rewrite Hpath.
  destruct n as [|[|[|n]]]; [done..|].
  rewrite TrimPrefix_separators, TrimSuffix_separators, SplitN_separators.
  cbn [Nat.leb]. by replace (S (S (S n)) - 3)%nat with n by lia.
Qed.

End Separators.

(** C10, as stated, fails on the path of three separators: one
    separator is trimmed at each end, the one left splits the path into
    two empty components, the second of which is no version, and the
    request is answered 404 without any metadata fetch. *)
Lemma three_separators_split_in_two :
  http.URL_Path (Sample.GET "///") = separators 3 /\
  pathComponents (Sample.GET "///") = [""; ""] /\
  pathComponents (Sample.GET "///") <> [""] /\
  status Sample.versioned (Sample.GET "///") = 404%Z /\
  callsMade Sample.versioned (Sample.GET "///") = [].
Proof. repeat split; done. Qed.

(** C10, amended: the path components of a request always have a first
    element, so that path parsing rejects no request.  For a GET whose
    path is made of [n] separators the identifier is exactly the
    configured prefix.  If [n] is at most two, the split yields the
    single empty component, the checker, if configured, is called with
    the bare prefix, and when the authorization stage lets the request
    through the metadata is fetched for the bare prefix.  If [n] is
    three or more, the split yields a second component, no repository
    call is made, and the answer is 404 when the authorization stage
    lets the request through. *)
Theorem separator_paths (dh : DownloadHandler) (r : http.Request) (n : nat) :
  http.Method r = "GET" ->
  http.URL_Path r = separators n ->
  (forall (r' : http.Request) (σ : World),
     exists c0, index (pathComponents r') 0 σ = (Next c0, σ)) /\
  identifier dh r = Prefix dh /\
  ((n <= 2)%nat ->
     pathComponents r = [""] /\
     (forall a, Auth dh = Some a ->
        exists rest, callsMade dh r = AuthCheck r (Prefix dh) :: rest) /\
     (authPasses dh r ->
        exists rest,
          callsMade dh r =
            (calls (afterAuth dh r)
               ++ CallGetDatastreamInfo (Prefix dh) (Ds dh) :: rest)%list)) /\
  ((3 <= n)%nat ->
     pathComponents r = [""; separators (n - 3)] /\
     noFedoraCall (callsMade dh r) /\
     (authPasses dh r -> status dh r = 404%Z)).
Proof.
  intros HGET Hpath.
  pose proof (pathComponents_separators r n Hpath) as Hcomp.
  assert (Hid : identifier dh r = Prefix dh).
  { unfold identifier. rewrite Hcomp.
    destruct (n <=? 2)%nat; cbn [hd]; apply append_empty. }
  split; [|split; [exact Hid|split]].
  - intros r' σ. destruct (index_identifier dh r' σ) as (c0 & Hc0 & _). eauto.
  - intros Hn. apply Nat.leb_le in Hn as Hleb. rewrite Hleb in Hcomp.
    split; [exact Hcomp|split].
    + intros a Ha.
      destruct (authorization_first_call dh r a Ha HGET) as [rest Hrest].
      exists rest. by rewrite <- Hid.
    + intros Hauth.
      assert (Hreach : reachesMetadataFetch dh r (-1)).
      { split; [done|]. split; [done|]. left. by exists "". }
      destruct (reaches_calls dh r (-1) Hreach) as [rest Hrest].
      exists rest. by rewrite <- Hid.
  - intros Hn.
    assert (Hleb : (n <=? 2)%nat = false) by (apply Nat.leb_gt; lia).
    rewrite Hleb in Hcomp. split; [exact Hcomp|].
    pose proof (Atoi_separators (n - 3)) as Hbad.
    assert (Hpass : authPasses dh r ->
      run dh r = (Returned, (notFound (afterAuth dh r)).2)).
    { intros Hauth.
      by apply (run_version_rejected dh r "" (separators (n - 3))); auto. }
    split.
    + unfold noFedoraCall, callsMade.
      destruct (auth_cases dh r) as [Hauth|(a & Ha & Hd)].
      * rewrite (Hpass Hauth). unfold afterAuth. cbn.
        destruct (Auth dh); repeat constructor.
      * rewrite (run_auth_refused dh r a HGET Ha Hd). cbn. repeat constructor.
    + intros Hauth. unfold status, response. by rewrite (Hpass Hauth).
Qed.

Lemma separator_paths_witness :
  identifier Sample.offline (Sample.GET "//") = "" /\
  pathComponents (Sample.GET "//") = [""] /\
  exists rest,
    callsMade Sample.offline (Sample.GET "//") =
      CallGetDatastreamInfo "" "content" :: rest.
Proof.
  destruct (separator_paths Sample.offline (Sample.GET "//") 2 eq_refl eq_refl)
    as (_ & Hid & Hshort & _).
  destruct (Hshort ltac:(lia)) as (Hcomp & _ & Hfetch).
  split; [exact Hid|]. split; [exact Hcomp|]. exact (Hfetch I).
Defined.

(** ** The authorization stage *)

(** C5: with an authorization checker configured, a request that is not
    a GET causes no call at all; for a GET the checker is the first
    collaborator called, on the request and its identifier, and its
    decision settles the response: Deny 401, NotFound 404, Error 500,
    each with the checker's call as the only call made, whatever the
    version segment and the repository; Allow lets the request proceed
    as it does on the handler without checker. *)
Theorem authorization_decides_first (dh : DownloadHandler) (r : http.Request)
    (a : auth.HydraAuth) :
  Auth dh = Some a ->
  (http.Method r <> "GET" -> callsMade dh r = []) /\
  (http.Method r = "GET" ->
   (exists rest, callsMade dh r = AuthCheck r (identifier dh r) :: rest) /\
   match auth.Check a r (identifier dh r) with
   | auth.AuthDeny =>
       status dh r = 401%Z /\ callsMade dh r = [AuthCheck r (identifier dh r)]
   | auth.AuthNotFound =>
       status dh r = 404%Z /\ callsMade dh r = [AuthCheck r (identifier dh r)]
   | auth.AuthError =>
       status dh r = 500%Z /\ callsMade dh r = [AuthCheck r (identifier dh r)]
   | auth.AuthAllow =>
       response dh r = response (withoutAuth dh) r /\
       callsMade dh r = AuthCheck r (identifier dh r) :: callsMade (withoutAuth dh) r
   end).
Proof.
  intros Ha. split.
  { intros Hother. unfold callsMade. by rewrite (run_non_GET dh r Hother). }
  intros HGET. split; [by apply (authorization_first_call dh r a)|].
  destruct (auth.Check a r (identifier dh r)) eqn:Hd.
  1,2,4: pose proof (run_auth_refused dh r a HGET Ha) as Hrun;
    rewrite Hd in Hrun; unfold status, response, callsMade;
    rewrite Hrun by done; by split.
  by apply (run_auth_allowed dh r a).
Qed.

Lemma authorization_decides_first_witness :
  status (Sample.guarded auth.AuthDeny) (Sample.GET "/abc123") = 401%Z /\
  callsMade (Sample.guarded auth.AuthDeny) (Sample.GET "/abc123") =
    [AuthCheck (Sample.GET "/abc123") "abc123"].
Proof.
  exact (proj2 (proj2 (authorization_decides_first (Sample.guarded auth.AuthDeny)
                         (Sample.GET "/abc123") (Sample.always auth.AuthDeny) eq_refl)
                  eq_refl)).
Defined.

(** ** The version segment *)

(** C6, as stated, fails on a handler whose checker denies: the request
    with a second path segment to a handler without versions is answered
    401, not 404. *)
Lemma denied_second_segment_is_unauthorized :
  Versioned (Sample.guardedUnversioned auth.AuthDeny) = false /\
  http.Method (Sample.GET "/abc123/3") = "GET" /\
  pathComponents (Sample.GET "/abc123/3") = ["abc123"; "3"] /\
  status (Sample.guardedUnversioned auth.AuthDeny) (Sample.GET "/abc123/3") = 401%Z /\
  status (Sample.guardedUnversioned auth.AuthDeny) (Sample.GET "/abc123/3") <> 404%Z.
Proof. repeat split; done. Qed.

(** C6, amended: a GET with a second path segment, to a handler without
    versions or with a segment that does not parse as a non-negative
    integer, causes no call to the repository client; it is answered 404
    when the authorization stage lets it through, and by the
    authorization stage otherwise. *)
Theorem invalid_version_segment_is_not_found (dh : DownloadHandler)
    (r : http.Request) (c0 c1 : string) :
  http.Method r = "GET" ->
  pathComponents r = [c0; c1] ->
  Versioned dh = false \/ ~ parsesNonNegative c1 ->
  noFedoraCall (callsMade dh r) /\
  (authPasses dh r -> status dh r = 404%Z) /\
  (forall a, Auth dh = Some a ->
     auth.Check a r (identifier dh r) <> auth.AuthAllow ->
     status dh r = (refusal (auth.Check a r (identifier dh r))).2).
Proof.
  intros HGET Hcomp Hbad.
  assert (Hpass : authPasses dh r ->
    run dh r = (Returned, (notFound (afterAuth dh r)).2))
    by (intros Hauth; by apply (run_version_rejected dh r c0 c1)).
  split; [|split].
  - unfold noFedoraCall, callsMade.
    destruct (auth_cases dh r) as [Hauth|(a & Ha & Hd)].
    + rewrite (Hpass Hauth). unfold afterAuth. cbn.
      destruct (Auth dh); repeat constructor.
    + rewrite (run_auth_refused dh r a HGET Ha Hd). cbn. repeat constructor.
  - intros Hauth. unfold status, response. by rewrite (Hpass Hauth).
  - intros a Ha Hd. unfold status, response.
    rewrite (run_auth_refused dh r a HGET Ha Hd).
    by destruct (auth.Check a r (identifier dh r)).
Qed.

Lemma invalid_version_segment_is_not_found_witness :
  status Sample.unversioned (Sample.GET "/abc123/3") = 404%Z /\
  status Sample.versioned (Sample.GET "/abc123/x") = 404%Z.
Proof.
  split.
  - exact (proj1 (proj2 (invalid_version_segment_is_not_found Sample.unversioned
        (Sample.GET "/abc123/3") "abc123" "3" eq_refl eq_refl (or_introl eq_refl))) I).
  - refine (proj1 (proj2 (invalid_version_segment_is_not_found Sample.versioned
        (Sample.GET "/abc123/x") "abc123" "x" eq_refl eq_refl (or_intror _))) I).
    intros [Herr _]. discriminate Herr.
Defined.

(** ** The metadata fetch *)

(** Whatever error the metadata call returns, the handler answers with
    [notFound]: the sentinel and every other failure alike. *)
Lemma metadata_error_is_not_found (dh : DownloadHandler) (r : http.Request)
    (version : Z) (dsinfo : fedora.DsInfo) (e : fedora.error) :
  reachesMetadataFetch dh r version ->
  fedora.GetDatastreamInfo (Fedora dh) (identifier dh r) (Ds dh) = (dsinfo, Some e) ->
  status dh r = 404%Z /\
  callsMade dh r =
    (calls (afterAuth dh r) ++ [CallGetDatastreamInfo (identifier dh r) (Ds dh)])%list.
Proof.
  intros Hreach Herr. unfold status, callsMade, response.
  rewrite (run_reaches _ _ _ Hreach). unfold serveVersion.
  by rewrite bind_eq, (fetchInfo_error _ _ _ _ _ Herr).
Qed.

(** C1: for the request [GET /abc123] the handler reaches the metadata
    fetch, the metadata call of the unreachable repository fails with an
    error that is not the not-found sentinel, and the handler answers
    404, where the specification asks for 500. *)
Theorem metadata_failure_answers_404 :
  fetchesMetadata Sample.offline (Sample.GET "/abc123") /\
  fedora.GetDatastreamInfo (Fedora Sample.offline)
    (identifier Sample.offline (Sample.GET "/abc123")) (Ds Sample.offline)
  = (Sample.noInfo, Some (fedora.OtherError "connection refused")) /\
  status Sample.offline (Sample.GET "/abc123") = 404%Z /\
  status Sample.offline (Sample.GET "/abc123") <> 500%Z.
Proof.
  assert (Hreach : reachesMetadataFetch Sample.offline (Sample.GET "/abc123") (-1)).
  { repeat split. left. by exists "abc123". }
  destruct (metadata_error_is_not_found _ _ _ Sample.noInfo
              (fedora.OtherError "connection refused") Hreach eq_refl)
    as [Hstatus _].
  split; [apply fetchesMetadata_reaches; eauto|].
  split; [reflexivity|]. split; [exact Hstatus|]. by rewrite Hstatus.
Qed.

(** ** Version reconciliation *)

(** C2: on a versioned handler, for a GET whose second path segment
    parses as the non-negative integer [token] and for which the handler
    fetched the metadata [dsinfo]: if [token] is the number parsed from
    the text after the last ['.'] of the version identifier, the handler
    goes on exactly as it does for the current version (version [-1]),
    answers as it answers a request for the same identifier without
    version segment, and the answer is 200 or 304 when the content fetch
    succeeds; for every other token the answer is 403. *)
Theorem version_token_reconciled (dh : DownloadHandler) (r : http.Request)
    (c0 c1 : string) (token : Z) (dsinfo : fedora.DsInfo) :
  http.Method r = "GET" ->
  Versioned dh = true ->
  pathComponents r = [c0; c1] ->
  strconv.Atoi c1 = (token, None) ->
  (0 <= token)%Z ->
  fetchedMetadata dh r dsinfo ->
  (numericSuffix (fedora.VersionID dsinfo) token ->
     run dh r = serveVersion dh r (identifier dh r) (-1) (afterAuth dh r) /\
     (forall r', pathComponents r' = [c0] ->
        http.Header r' = http.Header r -> fetchesMetadata dh r' ->
        response dh r' = response dh r) /\
     (forall content info,
        fedora.GetDatastream (Fedora dh) (identifier dh r) (Ds dh)
          = (content, info, None) ->
        status dh r = 200%Z \/ status dh r = 304%Z)) /\
  (~ numericSuffix (fedora.VersionID dsinfo) token -> status dh r = 403%Z).
Proof.
  intros HGET Hv Hcomp Hatoi Hpos Hfetched.
  pose proof (fetched_with_token _ _ _ _ _ _ Hcomp Hatoi Hfetched) as Hreach.
  destruct Hfetched as [_ Hinfo].
  pose proof (run_reaches _ _ _ Hreach) as Hrun.
  unfold serveVersion in Hrun.
  rewrite bind_eq, (fetchInfo_ok _ _ _ _ Hinfo), bind_eq in Hrun.
  split.
  - intros Hnum.
    rewrite (checkVersion_current _ _ _ _ (or_intror Hnum)) in Hrun.
    assert (Hcur : forall r1 : http.Request,
      identifier dh r1 = identifier dh r ->
      serveVersion dh r1 (identifier dh r1) (-1) (afterAuth dh r1) =
      (etagMatch r1 dsinfo ;; sendContent dh (identifier dh r) dsinfo)
        (call (CallGetDatastreamInfo (identifier dh r) (Ds dh)) (afterAuth dh r1)).2).
    { intros r1 Hid. unfold serveVersion. rewrite Hid.
      rewrite bind_eq, (fetchInfo_ok _ _ _ _ Hinfo), bind_eq.
      by rewrite checkVersion_current by (left; lia). }
    split; [|split].
    + by rewrite Hrun, Hcur.
    + intros r' Hcomp' Hhdr Hfetch'.
      assert (Hid : identifier dh r' = identifier dh r)
        by (unfold identifier; by rewrite Hcomp, Hcomp').
      pose proof (fetched_without_token _ _ _ Hcomp' Hfetch') as Hreach'.
      unfold response. rewrite Hrun, (run_reaches _ _ _ Hreach'), (Hcur r' Hid).
      f_equal. by apply deliver_writer.
    + intros content info Hget. unfold status, response. rewrite Hrun, bind_eq.
      destruct (etagMatch_cases r dsinfo) as [Hnext|Hret]; rewrite ?Hnext, ?Hret.
      * left.
        destruct (sendContent_ok dh _ _ dsinfo _
          (call (CallGetDatastreamInfo (identifier dh r) (Ds dh)) (afterAuth dh r)).2
          Hget eq_refl) as [Hresp _].
        by rewrite Hresp.
      * by right.
  - intros Hnot.
    destruct (checkVersion_mismatch dh token dsinfo
                (call (CallGetDatastreamInfo (identifier dh r) (Ds dh)) (afterAuth dh r)).2
                Hpos Hnot) as (σ' & Hcheck & Hw & _).
    unfold status, response. rewrite Hrun, Hcheck. cbn [snd]. by rewrite Hw.
Qed.

Lemma version_token_reconciled_witness :
  run Sample.versioned (Sample.GET "/abc123/3") =
    serveVersion Sample.versioned (Sample.GET "/abc123/3") "abc123" (-1)
      (afterAuth Sample.versioned (Sample.GET "/abc123/3")) /\
  response Sample.versioned (Sample.GET "/abc123") =
    response Sample.versioned (Sample.GET "/abc123/3") /\
  status Sample.versioned (Sample.GET "/abc123/3") = 200%Z /\
  status Sample.versioned (Sample.GET "/abc123/5") = 403%Z.
Proof.
  assert (H3 : numericSuffix "abc123.3" 3) by (by exists "abc123", "3").
  assert (H5 : ~ numericSuffix "abc123.3" 5)
    by (intros H; by pose proof (numericSuffix_unique _ _ _ H H3)).
  assert (Hfirst : forall (c : Call) rest, c ∈ c :: rest) by (intros; by left).
  destruct (version_token_reconciled Sample.versioned (Sample.GET "/abc123/3")
              "abc123" "3" 3 Sample.info3
              eq_refl eq_refl eq_refl eq_refl ltac:(lia)
              (conj (Hfirst _ _) eq_refl))
    as [Hsame _].
  destruct (Hsame H3) as (Hrun & Hplain & Hstatus).
  split; [exact Hrun|].
  split; [exact (Hplain (Sample.GET "/abc123") eq_refl eq_refl (Hfirst _ _))|].
  split; [reflexivity|].
  exact (proj2 (version_token_reconciled Sample.versioned (Sample.GET "/abc123/5")
                  "abc123" "5" 5 Sample.info3
                  eq_refl eq_refl eq_refl eq_refl ltac:(lia)
                  (conj (Hfirst _ _) eq_refl)) H5).
Defined.

(** C3: on a versioned request whose token was validated and for which
    the handler fetched the metadata, a version identifier without
    ['.'], or with a text after its last ['.'] that does not parse as an
    integer, makes [currentVersion] return [-1]; the token is not
    negative, so it differs and the answer is 403. *)
Theorem unparsable_version_is_forbidden (dh : DownloadHandler) (r : http.Request)
    (c0 c1 : string) (token : Z) (dsinfo : fedora.DsInfo) :
  http.Method r = "GET" ->
  Versioned dh = true ->
  pathComponents r = [c0; c1] ->
  strconv.Atoi c1 = (token, None) ->
  (0 <= token)%Z ->
  fetchedMetadata dh r dsinfo ->
  unparsableVersionID (fedora.VersionID dsinfo) ->
  (forall σ, (currentVersion dh dsinfo σ).1 = Next (-1)%Z) /\
  token <> (-1)%Z /\
  status dh r = 403%Z.
Proof.
  intros HGET Hv Hcomp Hatoi Hpos Hfetched Hbad.
  pose proof (fetched_with_token _ _ _ _ _ _ Hcomp Hatoi Hfetched) as Hreach.
  destruct Hfetched as [_ Hinfo].
  split; [|split; [lia|]].
  - intros σ. by destruct (currentVersion_unparsable dh dsinfo σ Hbad) as [line ->].
  - assert (Hnot : ~ numericSuffix (fedora.VersionID dsinfo) token).
    { intros Hnum. pose proof (unparsable_not_numeric _ _ Hbad Hnum). lia. }
    destruct (checkVersion_mismatch dh token dsinfo
                (call (CallGetDatastreamInfo (identifier dh r) (Ds dh)) (afterAuth dh r)).2
                Hpos Hnot) as (σ' & Hcheck & Hw & _).
    unfold status, response. rewrite (run_reaches _ _ _ Hreach). unfold serveVersion.
    rewrite bind_eq, (fetchInfo_ok _ _ _ _ Hinfo), bind_eq.
    rewrite Hcheck. cbn [snd]. by rewrite Hw.
Qed.

Lemma unparsable_version_is_forbidden_witness :
  status Sample.stale (Sample.GET "/abc123/3") = 403%Z.
Proof.
  assert (Hfirst : forall (c : Call) rest, c ∈ c :: rest) by (intros; by left).
  exact (proj2 (proj2
    (unparsable_version_is_forbidden Sample.stale (Sample.GET "/abc123/3")
       "abc123" "3" 3 _ eq_refl eq_refl eq_refl eq_refl ltac:(lia)
       (conj (Hfirst _ _) eq_refl) (or_introl eq_refl)))).
Defined.

(** ** The conditional check *)

(** C4: a request that reaches the conditional check and carries, among
    the values of [If-None-Match], one equal to the metadata's version
    identifier is answered 304 with the version identifier as [ETag] and
    no other header, nothing is written to the body, and
    [GetDatastream] is not called: the metadata call is the last call
    made. *)
Theorem validator_match_is_not_modified (dh : DownloadHandler) (r : http.Request)
    (dsinfo : fedora.DsInfo) (etags : list string) :
  reachesConditionalCheck dh r dsinfo ->
  http.Header r !! "If-None-Match" = Some etags ->
  fedora.VersionID dsinfo ∈ etags ->
  response dh r =
    {| http.StatusCode := 304;
       http.ResponseHeader := {[ "ETag" := [fedora.VersionID dsinfo] ]};
       http.Body := "" |} /\
  callsMade dh r =
    (calls (afterAuth dh r) ++ [CallGetDatastreamInfo (identifier dh r) (Ds dh)])%list /\
  (forall pid ds, CallGetDatastream pid ds ∉ callsMade dh r).
Proof.
  intros (version & Hreach & Hinfo & Hcur) Hhdr Hin.
  assert (Hrun : run dh r =
    (Returned,
     (respond (http.WriteHeader http.StatusNotModified)
        (respond (http.setHeader "ETag" (fedora.VersionID dsinfo))
           (call (CallGetDatastreamInfo (identifier dh r) (Ds dh))
              (afterAuth dh r)).2).2).2)).
  { rewrite (run_reaches _ _ _ Hreach). unfold serveVersion.
    rewrite bind_eq, (fetchInfo_ok _ _ _ _ Hinfo), bind_eq.
    rewrite checkVersion_current by (destruct Hcur; [left; lia|by right]).
    rewrite bind_eq. unfold etagMatch. rewrite Hhdr.
    by rewrite (etagLoop_match _ _ _ Hin). }
  assert (Hcalls : callsMade dh r =
    (calls (afterAuth dh r) ++ [CallGetDatastreamInfo (identifier dh r) (Ds dh)])%list).
  { unfold callsMade. by rewrite Hrun. }
  split; [|split; [exact Hcalls|]].
  - unfold response. by rewrite Hrun.
  - intros pid ds. rewrite Hcalls. unfold afterAuth. cbn [calls].
    destruct (Auth dh); cbn; intros Hx;
      repeat (apply elem_of_cons in Hx as [Hx|Hx]; [discriminate|]);
      by apply elem_of_nil in Hx.
Qed.

Lemma validator_match_is_not_modified_witness :
  response Sample.versioned (Sample.conditionalGET "/abc123" "abc123.3") =
    {| http.StatusCode := 304;
       http.ResponseHeader := {[ "ETag" := ["abc123.3"] ]};
       http.Body := "" |}.
Proof.
  assert (Hreach : reachesConditionalCheck Sample.versioned
                     (Sample.conditionalGET "/abc123" "abc123.3") Sample.info3).
  { exists (-1)%Z. split; [|split; [reflexivity|by left]].
    split; [reflexivity|]. split; [exact I|]. left. by exists "abc123". }
  exact (proj1 (validator_match_is_not_modified Sample.versioned
                  (Sample.conditionalGET "/abc123" "abc123.3") Sample.info3
                  ["abc123.3"] Hreach eq_refl ltac:(by apply list_elem_of_singleton))).
Defined.

(** ** The content response *)

(** C8: a response with status 200 comes from a successful metadata
    fetch and a successful content fetch, and its headers are exactly
    the six of [contentHeaders]: type and length from the content
    descriptor, the inline disposition with the metadata's label as the
    quoted file name, the binary transfer encoding, the private cache
    control, and the metadata's version identifier as [ETag]. *)
Theorem content_response_headers (dh : DownloadHandler) (r : http.Request) :
  status dh r = 200%Z ->
  exists (content : string) (dsinfo info : fedora.DsInfo),
    fedora.GetDatastreamInfo (Fedora dh) (identifier dh r) (Ds dh) = (dsinfo, None) /\
    fedora.GetDatastream (Fedora dh) (identifier dh r) (Ds dh) = (content, info, None) /\
    response dh r =
      {| http.StatusCode := 200;
         http.ResponseHeader := contentHeaders dsinfo info;
         http.Body := content |} /\
    http.ResponseHeader (response dh r) =
      {[ "Content-Type" := [fedora.Type_ info];
         "Content-Length" := [fedora.Length info];
         "Content-Disposition" :=
           ["inline; filename=" ++ quote ++ fedora.Label dsinfo ++ quote];
         "Content-Transfer-Encoding" := ["binary"];
         "Cache-Control" := ["private"];
         "ETag" := [fedora.VersionID dsinfo] ]}.
Proof.
  unfold status, response. intros H200.
  destruct (String.eqb_spec (http.Method r) "GET") as [HGET|Hother];
    [|by rewrite (run_non_GET dh r Hother) in H200].
  destruct (auth_cases dh r) as [Hauth|(a & Ha & Hd)].
  2:{ rewrite (run_auth_refused dh r a HGET Ha Hd) in H200.
      by destruct (auth.Check a r (identifier dh r)). }
  destruct (version_cases dh r) as [(version & Hver)|(c0 & c1 & Hcomp & Hbad)].
  2:{ by rewrite (run_version_rejected dh r c0 c1 HGET Hauth Hcomp Hbad) in H200. }
  assert (Hreach : reachesMetadataFetch dh r version) by done.
  rewrite (run_reaches _ _ _ Hreach) in *. unfold serveVersion in *.
  rewrite bind_eq in *.
  destruct (fedora.GetDatastreamInfo (Fedora dh) (identifier dh r) (Ds dh))
    as [dsinfo [e|]] eqn:Hinfo.
  { by rewrite (fetchInfo_error _ _ _ _ _ Hinfo) in H200. }
  rewrite (fetchInfo_ok _ _ _ _ Hinfo), bind_eq in *.
  set (σ := (call (CallGetDatastreamInfo (identifier dh r) (Ds dh)) (afterAuth dh r)).2) in *.
  assert (Hcheck : checkVersion dh version dsinfo σ = (Next tt, σ)).
  { destruct (Z.le_gt_cases 0 version) as [Hpos|Hneg].
    - destruct (numericSuffix_dec (fedora.VersionID dsinfo) version Hpos) as [Hnum|Hnot].
      + by apply checkVersion_current; right.
      + destruct (checkVersion_mismatch dh version dsinfo σ Hpos Hnot)
          as (σ' & Hc & Hw & _).
        rewrite Hc in H200. cbn [snd] in H200. by rewrite Hw in H200.
    - apply checkVersion_current. left. lia. }
  rewrite Hcheck, bind_eq in *.
  destruct (etagMatch_cases r dsinfo) as [Hnext|Hret];
    [rewrite Hnext in *|by rewrite Hret in H200].
  destruct (fedora.GetDatastream (Fedora dh) (identifier dh r) (Ds dh))
    as [[content info] [e|]] eqn:Hget.
  { rewrite (sendContent_error dh _ _ dsinfo _ _ σ Hget eq_refl) in H200.
    by destruct e. }
  destruct (sendContent_ok dh _ _ dsinfo _ σ Hget eq_refl) as [Hresp _].
  exists content, dsinfo, info. rewrite Hresp. by repeat split.
Qed.

Lemma content_response_headers_witness :
  status Sample.versioned (Sample.GET "/abc123") = 200%Z /\
  exists (content : string) (dsinfo info : fedora.DsInfo),
    fedora.GetDatastreamInfo Sample.repository "abc123" "content" = (dsinfo, None) /\
    fedora.GetDatastream Sample.repository "abc123" "content" = (content, info, None) /\
    http.ResponseHeader (response Sample.versioned (Sample.GET "/abc123")) =
      contentHeaders dsinfo info.
Proof.
  split; [reflexivity|].
  destruct (content_response_headers Sample.versioned (Sample.GET "/abc123") eq_refl)
    as (content & dsinfo & info & Hinfo & Hget & Hresp & _).
  exists content, dsinfo, info.
  split; [exact Hinfo|]. split; [exact Hget|]. by rewrite Hresp.
Defined.

(** ** The route table *)

Section RouteTable.

Variable hh : main.HandlerFunc.

Lemma addNames_untouched (names : list string) (mux : main.DsidMux) (name : string) :
  name ∉ names \/ name = "default" ->
  main.handlers (main.addNames names hh mux) !! name = main.handlers mux !! name.
Proof.
  revert mux. induction names as [|n rest IH]; intros mux Hname; [done|].
  cbn [main.addNames].
  assert (Hrest : name ∉ rest \/ name = "default").
  { destruct Hname as [Hnot|?]; [|by right].
    left. by apply not_elem_of_cons in Hnot as [_ ?]. }
  destruct (String.eqb_spec n "default") as [->|Hn].
  - by rewrite IH.
  - rewrite IH by done. cbn. apply lookup_insert_ne.
    destruct Hname as [Hnot| ->]; [|done].
    apply not_elem_of_cons in Hnot as [? _]. congruence.
Qed.

Lemma addNames_registered (names : list string) (mux : main.DsidMux) (name : string) :
  name ∈ names -> name <> "default" ->
  main.handlers (main.addNames names hh mux) !! name = Some hh.
Proof.
  intros Hin Hname. revert mux Hin.
  induction names as [|n rest IH]; intros mux Hin.
  - by apply elem_of_nil in Hin.
  - cbn [main.addNames]. destruct (String.eqb_spec n "default") as [->|Hn].
    + apply IH. apply elem_of_cons in Hin as [?|?]; [done|done].
    + destruct (decide (name ∈ rest)) as [Hrest|Hrest]; [by apply IH|].
      apply elem_of_cons in Hin as [->|?]; [|done].
      rewrite addNames_untouched by (by left). cbn. apply lookup_insert_eq.
Qed.

Lemma addNames_no_default (names : list string) (mux : main.DsidMux) :
  "default" ∉ names ->
  main.DefaultHandler (main.addNames names hh mux) = main.DefaultHandler mux.
Proof.
  revert mux. induction names as [|n rest IH]; intros mux Hnot; [done|].
  apply not_elem_of_cons in Hnot as [Hn Hrest].
  cbn [main.addNames].
  destruct (String.eqb_spec n "default") as [->|_]; [done|].
  by rewrite IH.
Qed.

Lemma addNames_default (names : list string) (mux : main.DsidMux) :
  "default" ∈ names ->
  main.DefaultHandler (main.addNames names hh mux) = Some hh.
Proof.
  revert mux. induction names as [|n rest IH]; intros mux Hin.
  - by apply elem_of_nil in Hin.
  - cbn [main.addNames]. destruct (String.eqb_spec n "default") as [->|Hn].
    + destruct (decide ("default" ∈ rest)) as [Hrest|Hrest]; [by apply IH|].
      by rewrite addNames_no_default.
    + apply IH. apply elem_of_cons in Hin as [?|?]; [congruence|done].
Qed.

End RouteTable.

(** C9: the loop body of [runHandlers], run for the entry [v] named
    [key] on any route table built so far, leaves a multiplexer for the
    entry's port in which: with no segment identifier, the entry's
    handler is the default and the routable segments are unchanged; with
    the identifier [default] among the segment identifiers, the handler
    is the default and the segment [default] is not registered by this
    entry; every other segment identifier of the entry routes to the
    handler; and nothing else changes.  [runHandlers] runs this body for
    each entry in turn. *)
Theorem handler_entry_registration (fedora : fedora.Fedora) (auth : auth.HydraAuth)
    (portHandlers : gmap string main.DsidMux) (key : string) (v : main.HandlerConfig) :
  exists mux,
    main.addHandlerEntry fedora auth portHandlers (key, v) !! main.Port v = Some mux /\
    (main.Datastream_id v = [] ->
       main.DefaultHandler mux = Some (closure fedora auth key v) /\
       main.handlers mux = main.handlers (muxOf portHandlers (main.Port v))) /\
    ("default" ∈ main.Datastream_id v ->
       main.DefaultHandler mux = Some (closure fedora auth key v) /\
       main.handlers mux !! "default" =
         main.handlers (muxOf portHandlers (main.Port v)) !! "default") /\
    (forall name, name ∈ main.Datastream_id v -> name <> "default" ->
       main.handlers mux !! name = Some (closure fedora auth key v)) /\
    (forall name, name ∉ main.Datastream_id v ->
       main.handlers mux !! name =
         main.handlers (muxOf portHandlers (main.Port v)) !! name) /\
    (main.Datastream_id v <> [] -> "default" ∉ main.Datastream_id v ->
       main.DefaultHandler mux =
         main.DefaultHandler (muxOf portHandlers (main.Port v))) /\
    (forall entries,
       main.runHandlers (entries ++ [(key, v)]) fedora auth =
       main.addHandlerEntry fedora auth (main.runHandlers entries fedora auth) (key, v)).
Proof.
  unfold main.addHandlerEntry. fold (muxOf portHandlers (main.Port v)).
  fold (closure fedora auth key v).
  set (hh := closure fedora auth key v). set (before := muxOf portHandlers (main.Port v)).
  eexists. split; [apply lookup_insert_eq|].
  split; [|split; [|split; [|split; [|split]]]].
  - intros ->. done.
  - intros Hin. split; [by apply addNames_default|].
    rewrite addNames_untouched by (by right).
    by destruct (main.Datastream_id v).
  - intros name Hin Hname. by apply addNames_registered.
  - intros name Hnot. rewrite addNames_untouched by (by left).
    by destruct (main.Datastream_id v).
  - intros Hne Hnot. rewrite addNames_no_default by done.
    by destruct (main.Datastream_id v).
  - intros entries. unfold main.runHandlers. by rewrite foldl_app.
Qed.

Lemma handler_entry_registration_witness :
  exists mux,
    main.runHandlers [("thumbs", Sample.thumbnails); ("files", Sample.fallback)]
      Sample.repository (Sample.always auth.AuthAllow) !! "8080" = Some mux /\
    main.DefaultHandler mux =
      Some (closure Sample.repository (Sample.always auth.AuthAllow)
              "files" Sample.fallback) /\
    main.handlers mux !! "thumbnail" =
      Some (closure Sample.repository (Sample.always auth.AuthAllow)
              "thumbs" Sample.thumbnails) /\
    main.handlers mux !! "default" = None.
Proof.
  destruct (handler_entry_registration Sample.repository
              (Sample.always auth.AuthAllow)
              (main.runHandlers [("thumbs", Sample.thumbnails)]
                 Sample.repository (Sample.always auth.AuthAllow))
              "files" Sample.fallback)
    as (mux & Hmux & Hnone & _).
  destruct (Hnone eq_refl) as [Hdefault Hhandlers].
  exists mux. split; [exact Hmux|]. split; [exact Hdefault|].
  rewrite Hhandlers. split; reflexivity.
Defined.

(** ** The exits of [ServeHTTP] *)

Section Exits.

Variable dh : DownloadHandler.
Variable r : http.Request.

Lemma etagLoop_no_match (etags : list string) (dsinfo : fedora.DsInfo) (σ : World) :
  fedora.VersionID dsinfo ∉ etags -> etagLoop etags dsinfo σ = (Next tt, σ).
Proof.
  induction etags as [|etag rest IH]; intros Hnot; [done|].
  apply not_elem_of_cons in Hnot as [Hne Hrest]. cbn [etagLoop].
  destruct (String.eqb_spec etag (fedora.VersionID dsinfo)); [congruence|].
  by apply IH.
Qed.

Lemma validatorMatches_dec (dsinfo : fedora.DsInfo) :
  validatorMatches r dsinfo \/ ~ validatorMatches r dsinfo.
Proof.
  unfold validatorMatches.
  destruct (http.Header r !! "If-None-Match") as [etags|] eqn:Hhdr.
  - destruct (decide (fedora.VersionID dsinfo ∈ etags)) as [Hin|Hnot].
    + left. eauto.
    + right. intros (etags' & Heq & Hin). congruence.
  - right. by intros (etags' & Heq & _).
Qed.

Lemma etagMatch_match (dsinfo : fedora.DsInfo) (σ : World) :
  validatorMatches r dsinfo ->
  etagMatch r dsinfo σ =
  (Returned,
   (respond (http.WriteHeader http.StatusNotModified)
      (respond (http.setHeader "ETag" (fedora.VersionID dsinfo)) σ).2).2).
Proof.
  intros (etags & Hhdr & Hin). unfold etagMatch. rewrite Hhdr.
  by apply etagLoop_match.
Qed.

Lemma etagMatch_no_match (dsinfo : fedora.DsInfo) (σ : World) :
  ~ validatorMatches r dsinfo -> etagMatch r dsinfo σ = (Next tt, σ).
Proof.
  intros Hnot. unfold etagMatch.
  destruct (http.Header r !! "If-None-Match") as [etags|] eqn:Hhdr; [|done].
  apply etagLoop_no_match. intros Hin. apply Hnot. by exists etags.
Qed.

Lemma afterAuth_calls : calls (afterAuth dh r) = authCalls dh r.
Proof. reflexivity. Qed.

(** The run of a request that reaches the conditional check. *)
Lemma run_conditional (dsinfo : fedora.DsInfo) :
  reachesConditionalCheck dh r dsinfo ->
  run dh r =
  (etagMatch r dsinfo ;; sendContent dh (identifier dh r) dsinfo)
    (call (infoCall dh r) (afterAuth dh r)).2.
Proof.
  intros (version & Hreach & Hinfo & Hcur).
  rewrite (run_reaches _ _ _ Hreach). unfold serveVersion.
  rewrite bind_eq, (fetchInfo_ok _ _ _ _ Hinfo), bind_eq.
  by rewrite checkVersion_current by (destruct Hcur; [left; lia|by right]).
Qed.

Lemma sendContent_run (content : string) (dsinfo info : fedora.DsInfo) (cs : list Call)
    (ls : list (list LogArg)) :
  fedora.GetDatastream (Fedora dh) (identifier dh r) (Ds dh) = (content, info, None) ->
  sendContent dh (identifier dh r) dsinfo
    {| w := http.newResponseWriter; calls := cs; logged := ls |} =
  (Returned,
   {| w := contentWriter dsinfo info content;
      calls := cs ++ [contentCall dh r; ContentClose];
      logged := ls |}).
Proof.
  intros Hget. unfold sendContent. rewrite bind_eq. cbn [call]. rewrite Hget.
  unfold contentWriter, contentCall.
  replace (cs ++ [CallGetDatastream (identifier dh r) (Ds dh); ContentClose])%list
    with ((cs ++ [CallGetDatastream (identifier dh r) (Ds dh)]) ++ [ContentClose])%list
    by (by rewrite <- app_assoc).
  reflexivity.
Qed.

Lemma sendContent_fails (content : string) (dsinfo info : fedora.DsInfo)
    (e : fedora.error) (cs : list Call) (ls : list (list LogArg)) :
  fedora.GetDatastream (Fedora dh) (identifier dh r) (Ds dh) = (content, info, Some e) ->
  exists ls',
    sendContent dh (identifier dh r) dsinfo
      {| w := http.newResponseWriter; calls := cs; logged := ls |} =
    (Returned,
     {| w := errorWriter (contentFailure e).1 (contentFailure e).2;
        calls := cs ++ [contentCall dh r];
        logged := ls' |}).
Proof.
  intros Hget. unfold sendContent. rewrite bind_eq. cbn [call]. rewrite Hget.
  destruct e; eexists; reflexivity.
Qed.

(** Every request ends by a return, in one of the eight exits. *)
Lemma run_exits :
  (run dh r).1 = Returned /\ exits dh r (w (run dh r).2) (callsMade dh r).
Proof.
  unfold callsMade.
  destruct (String.eqb_spec (http.Method r) "GET") as [HGET|Hother].
  2:{ rewrite (run_non_GET dh r Hother). split; [done|]. by apply exit_method. }
  destruct (auth_cases dh r) as [Hauth|(a & Ha & Hd)].
  2:{ rewrite (run_auth_refused dh r a HGET Ha Hd). split; [done|].
      by apply (exit_auth dh r a). }
  destruct (version_cases dh r) as [(version & Hver)|(c0 & c1 & Hcomp & Hbad)].
  2:{ rewrite (run_version_rejected dh r c0 c1 HGET Hauth Hcomp Hbad).
      split; [done|]. by apply (exit_version dh r c0 c1). }
  assert (Hreach : reachesMetadataFetch dh r version) by done.
  destruct (fedora.GetDatastreamInfo (Fedora dh) (identifier dh r) (Ds dh))
    as [dsinfo [e|]] eqn:Hinfo.
  { rewrite (run_reaches _ _ _ Hreach). unfold serveVersion.
    rewrite bind_eq, (fetchInfo_error _ _ _ _ _ Hinfo). split; [done|].
    by apply (exit_metadata dh r version dsinfo e). }
  assert (Hcur : (version < 0)%Z \/ numericSuffix (fedora.VersionID dsinfo) version
                 \/ ((0 <= version)%Z /\
                     ~ numericSuffix (fedora.VersionID dsinfo) version)).
  { destruct (Z.le_gt_cases 0 version) as [Hpos|Hneg]; [|by left].
    destruct (numericSuffix_dec (fedora.VersionID dsinfo) version Hpos); auto. }
  destruct Hcur as [Hcur|[Hcur|[Hpos Hnot]]].
  3:{ rewrite (run_reaches _ _ _ Hreach). unfold serveVersion.
      rewrite bind_eq, (fetchInfo_ok _ _ _ _ Hinfo), bind_eq.
      destruct (checkVersion_mismatch dh version dsinfo
                  (call (CallGetDatastreamInfo (identifier dh r) (Ds dh))
                     (afterAuth dh r)).2 Hpos Hnot) as (σ' & -> & Hw & Hcalls).
      split; [done|]. cbn [snd]. rewrite Hw, Hcalls.
      by apply (exit_mismatch dh r version dsinfo). }
  all: assert (Hcond : reachesConditionalCheck dh r dsinfo).
  all: try (exists version; split; [done|]; split; [done|]).
  { destruct Hreach as (_ & _ & [(c0 & _ & ->)|(c0 & c1 & _ & _ & _ & Hpos)]);
      [by left|lia]. }
  2:{ by right. }
  all: rewrite (run_conditional dsinfo Hcond), bind_eq.
  all: destruct (validatorMatches_dec dsinfo) as [Hm|Hm].
  all: try (rewrite (etagMatch_match _ _ Hm); split; [done|];
            by apply (exit_not_modified dh r dsinfo)).
  all: rewrite (etagMatch_no_match _ _ Hm).
  all: destruct (fedora.GetDatastream (Fedora dh) (identifier dh r) (Ds dh))
         as [[content info] [e|]] eqn:Hget.
  all: try (destruct (sendContent_fails content dsinfo info e
                        (authCalls dh r ++ [infoCall dh r])
                        (logged (afterAuth dh r)) Hget) as [ls' Hrun];
            unfold call; cbn [snd w calls logged]; rewrite afterAuth_calls;
            change (w (afterAuth dh r)) with http.newResponseWriter;
            rewrite Hrun; split; [done|]; cbn [snd w calls];
            rewrite <- app_assoc;
            by apply (exit_content_error dh r dsinfo info content e)).
  all: unfold call; cbn [snd w calls logged]; rewrite afterAuth_calls;
       change (w (afterAuth dh r)) with http.newResponseWriter;
       rewrite (sendContent_run content dsinfo info _ _ Hget);
       split; [done|]; cbn [snd w calls]; rewrite <- app_assoc;
       by apply (exit_content dh r dsinfo info content).
Qed.

End Exits.

(** ** What every response has in common *)

Section Responses.

Variable dh : DownloadHandler.
Variable r : http.Request.

Lemma finish_errorWriter (msg : string) (code : Z) :
  http.bodyAllowedForStatus code = true ->
  http.finishRequest (errorWriter msg code) = errorResponse msg code.
Proof.
  intros Hbody. unfold errorWriter, http.Error, http.Write.
  cbn [http.WriteHeader http.setHeader http.wroteHeader http.newResponseWriter
       http.handlerHeader http.written].
  by rewrite Hbody.
Qed.

Lemma finish_contentWriter (dsinfo info : fedora.DsInfo) (content : string) :
  http.finishRequest (contentWriter dsinfo info content) =
  {| http.StatusCode := 200;
     http.ResponseHeader := contentHeaders dsinfo info;
     http.Body := content |}.
Proof. by destruct content. Qed.

Lemma refusal_message (d : auth.Authorization) :
  d <> auth.AuthAllow -> refusal d ∈ errorMessages.
Proof.
  intros Hd. unfold errorMessages.
  destruct d; [|  |done| ]; cbn; repeat first [by left | right].
Qed.

Lemma contentFailure_message (e : fedora.error) : contentFailure e ∈ errorMessages.
Proof. unfold errorMessages. destruct e; cbn; repeat first [by left | right]. Qed.

Lemma errorMessages_allow_body (msg : string) (code : Z) :
  (msg, code) ∈ errorMessages ->
  http.bodyAllowedForStatus code = true /\
  (code = 401 \/ code = 403 \/ code = 404 \/ code = 500)%Z.
Proof.
  unfold errorMessages. intros Hin.
  repeat (apply elem_of_cons in Hin as [Hin|Hin];
          [injection Hin as -> ->; split; [reflexivity|lia]|]).
  by apply elem_of_nil in Hin.
Qed.

(** The response of a request, by the way it ends: an error response
    with one of the fixed messages, the 304 response, or the content
    response. *)
Lemma response_cases :
  (exists msg code, (msg, code) ∈ errorMessages /\
     response dh r = errorResponse msg code) \/
  (exists dsinfo,
     response dh r =
       {| http.StatusCode := 304;
          http.ResponseHeader := {[ "ETag" := [fedora.VersionID dsinfo] ]};
          http.Body := "" |}) \/
  (exists dsinfo info content,
     response dh r =
       {| http.StatusCode := 200;
          http.ResponseHeader := contentHeaders dsinfo info;
          http.Body := content |}).
Proof.
  destruct (run_exits dh r) as [_ Hexit]. unfold response.
  assert (Herr : forall msg code, (msg, code) ∈ errorMessages ->
    exists msg' code', (msg', code') ∈ errorMessages /\
      http.finishRequest (errorWriter msg code) = errorResponse msg' code').
  { intros msg code Hin. exists msg, code. split; [done|].
    apply finish_errorWriter. by apply (errorMessages_allow_body msg code). }
  inversion Hexit as
    [ Hm Hw | a Hm Ha Hd Hw | c0 c1 Hm Hauth Hc Hbad Hw
    | version dsinfo e Hreach Hinfo Hw | version dsinfo Hreach Hinfo Hpos Hnot Hw
    | dsinfo Hcond Hmatch Hw | dsinfo info content e Hcond Hmatch Hget Hw
    | dsinfo info content Hcond Hmatch Hget Hw ].
  - left. apply Herr. unfold errorMessages. by left.
  - left. apply Herr. rewrite <- surjective_pairing. by apply refusal_message.
  - left. apply Herr. unfold errorMessages. by left.
  - left. apply Herr. unfold errorMessages. by left.
  - left. apply Herr. unfold errorMessages. do 3 right. by left.
  - right. left. by exists dsinfo.
  - left. apply Herr. rewrite <- surjective_pairing. apply contentFailure_message.
  - right. right. exists dsinfo, info, content. apply finish_contentWriter.
Qed.

End Responses.

(** X1: [ServeHTTP] ends every request by a return, never by an index
    out of range, in one of eight exits: the method gate, a refusal of
    the checker, a rejected version segment, a failed metadata fetch, a
    version mismatch, a matching validator, a failed content fetch, or
    the content.  Each exit fixes the response writer and the calls
    made. *)
Theorem ServeHTTP_exits (dh : DownloadHandler) (r : http.Request) :
  (run dh r).1 = Returned /\ exits dh r (w (run dh r).2) (callsMade dh r).
Proof. apply run_exits. Qed.

(** X2: the status of every response is 200, 304, 401, 403, 404 or
    500. *)
Theorem status_codes (dh : DownloadHandler) (r : http.Request) :
  status dh r ∈ [200; 304; 401; 403; 404; 500]%Z.
Proof.
  unfold status.
  destruct (response_cases dh r)
    as [(msg & code & Hin & ->)|[(dsinfo & ->)|(dsinfo & info & content & ->)]].
  - destruct (errorMessages_allow_body msg code Hin) as [_ Hcode].
    cbn [http.StatusCode errorResponse].
    destruct Hcode as [-> |[-> |[-> | ->]]]; repeat first [by left | right].
  - cbn. right. by left.
  - cbn. by left.
Qed.

(** X3: a response that is not the content (status 200) and not the 304
    response is an error response: status and message are one of five
    fixed pairs, the body is that message on a line, and the headers
    are the two of [http.Error].  No text of an error returned by a
    collaborator reaches the client.  The 304 response has an empty
    body and the [ETag] header only. *)
Theorem error_responses_are_fixed (dh : DownloadHandler) (r : http.Request) :
  (status dh r <> 200%Z -> status dh r <> 304%Z ->
   exists msg, (msg, status dh r) ∈ errorMessages /\
               response dh r = errorResponse msg (status dh r)) /\
  (status dh r = 304%Z ->
   http.Body (response dh r) = "" /\
   exists vid, http.ResponseHeader (response dh r) = {[ "ETag" := [vid] ]}).
Proof.
  unfold status.
  destruct (response_cases dh r)
    as [(msg & code & Hin & ->)|[(dsinfo & ->)|(dsinfo & info & content & ->)]].
  - split.
    + intros _ _. by exists msg.
    + cbn. intros ->. by destruct (errorMessages_allow_body msg 304 Hin) as [? _].
  - split; [by cbn|]. intros _. split; [done|]. by eexists.
  - split; [by cbn|]. by cbn.
Qed.

(** ** The calls of a request *)

Ltac exit_cases Hexit :=
  inversion Hexit as
    [ Hm Hw Hcs | a Hm Ha Hd Hw Hcs | c0 c1 Hm Hauth Hc Hbad Hw Hcs
    | version dsinfo e Hreach Hinfo Hw Hcs
    | version dsinfo Hreach Hinfo Hpos Hnot Hw Hcs
    | dsinfo Hcond Hmatch Hw Hcs
    | dsinfo info content e Hcond Hmatch Hget Hw Hcs
    | dsinfo info content Hcond Hmatch Hget Hw Hcs ].

Ltac not_in_calls H :=
  repeat first
    [ apply elem_of_app in H as [H|H]
    | apply elem_of_cons in H as [H|H]; [discriminate H|]
    | apply elem_of_nil in H; destruct H ].

(** X4: the calls of a request are an initial part of the sequence:
    the checker (when one is configured), [GetDatastreamInfo],
    [GetDatastream], the closing of the byte source.  Each is made at
    most once, in this order, and both repository calls are for the
    request's identifier and the configured datastream. *)
Theorem calls_follow_protocol (dh : DownloadHandler) (r : http.Request) :
  callsMade dh r `prefix_of`
    (authCalls dh r ++ [infoCall dh r; contentCall dh r; ContentClose])%list.
Proof.
  destruct (run_exits dh r) as [_ Hexit].
  exit_cases Hexit; unfold prefix.
  - by eexists.
  - unfold authCalls. rewrite Ha. by eexists.
  - by eexists.
  - eexists. by rewrite <- app_assoc.
  - eexists. by rewrite <- app_assoc.
  - eexists. by rewrite <- app_assoc.
  - eexists. by rewrite <- app_assoc.
  - exists []. by rewrite app_nil_r.
Qed.

(** X5: the byte source is closed exactly when it was obtained: the
    closing is among the calls of a request if and only if
    [GetDatastream] was called and returned no error.  This is also
    exactly when the status is 200. *)
Theorem content_closed_iff_obtained (dh : DownloadHandler) (r : http.Request) :
  (ContentClose ∈ callsMade dh r <->
   contentCall dh r ∈ callsMade dh r /\
   (fedora.GetDatastream (Fedora dh) (identifier dh r) (Ds dh)).2 = None) /\
  (ContentClose ∈ callsMade dh r <-> status dh r = 200%Z).
Proof.
  destruct (run_exits dh r) as [_ Hexit]. unfold status, response.
  assert (Hauth : (ContentClose ∉ authCalls dh r) /\
                  (contentCall dh r ∉ authCalls dh r)).
  { unfold authCalls. destruct (Auth dh); split; intros H; not_in_calls H. }
  destruct Hauth as [Hclose Hget'].
  exit_cases Hexit.
  1-6: split; (split; [intros H|]).
  1,3,5,7,9,11,13,15,17,19,21,23:
    try (unfold authCalls in H; rewrite ?Ha in H); try (by not_in_calls H);
    try (apply elem_of_app in H as [H|H]; [done|by not_in_calls H]);
    try (by apply Hclose in H).
  all: try (intros [H _]; try (unfold authCalls in H; rewrite ?Ha in H);
            try (by not_in_calls H);
            try (apply elem_of_app in H as [H|H]; [done|by not_in_calls H]);
            try (by apply Hget' in H)).
  all: try (rewrite finish_errorWriter by reflexivity; by cbn).
  all: try (by cbn).
  - (* the checker refused *)
    destruct (auth.Check a r (identifier dh r)); try done;
      rewrite finish_errorWriter by reflexivity; by cbn.
  - (* the content fetch failed *)
    split; (split; [intros H|]).
    + apply elem_of_app in H as [H|H]; [done|by not_in_calls H].
    + intros [_ Herr]. by rewrite Hget in Herr.
    + apply elem_of_app in H as [H|H]; [done|by not_in_calls H].
    + destruct e; rewrite finish_errorWriter by reflexivity; by cbn.
  - (* the content *)
    assert (Hin : forall c, c ∈ [infoCall dh r; contentCall dh r; ContentClose] ->
                  c ∈ (authCalls dh r
                         ++ [infoCall dh r; contentCall dh r; ContentClose])%list)
      by (intros c Hc; apply elem_of_app; by right).
    split; split.
    + intros _. split; [|by rewrite Hget].
      apply Hin. right. by left.
    + intros _. apply Hin. do 2 right. by left.
    + intros _. by rewrite finish_contentWriter.
    + intros _. apply Hin. do 2 right. by left.
Qed.

(** X6: a request that reaches the content fetch (it reached the
    conditional check and no validator matches) and whose
    [GetDatastream] call fails is answered 404 when the error is the
    not-found sentinel and 500 otherwise, with the fixed message; the
    failed call is the last one, so that nothing is closed. *)
Theorem content_failure_status (dh : DownloadHandler) (r : http.Request)
    (dsinfo info : fedora.DsInfo) (content : string) (e : fedora.error) :
  reachesConditionalCheck dh r dsinfo ->
  ~ validatorMatches r dsinfo ->
  fedora.GetDatastream (Fedora dh) (identifier dh r) (Ds dh) = (content, info, Some e) ->
  response dh r =
    match e with
    | fedora.FedoraNotFound => errorResponse "404 Not Found" 404
    | fedora.OtherError _ => errorResponse "500 Internal Error" 500
    end /\
  callsMade dh r = (authCalls dh r ++ [infoCall dh r; contentCall dh r])%list.
Proof.
  intros Hcond Hmatch Hget. unfold response, callsMade.
  rewrite (run_conditional dh r dsinfo Hcond), bind_eq.
  rewrite (etagMatch_no_match _ _ _ Hmatch).
  destruct (sendContent_fails dh r content dsinfo info e
              (authCalls dh r ++ [infoCall dh r])%list
              (logged (afterAuth dh r)) Hget) as [ls' Hrun].
  unfold call. cbn [snd w calls logged]. rewrite afterAuth_calls.
  change (w (afterAuth dh r)) with http.newResponseWriter.
  rewrite Hrun. cbn [snd w calls]. rewrite <- app_assoc. split; [|done].
  destruct e; by rewrite finish_errorWriter.
Qed.

Lemma content_failure_status_witness :
  status (NewDownloadHandler Sample.vanishing) (Sample.GET "/abc123") = 404%Z.
Proof.
  assert (Hcond : reachesConditionalCheck (NewDownloadHandler Sample.vanishing)
                    (Sample.GET "/abc123") Sample.info3).
  { exists (-1)%Z. split; [|split; [reflexivity|by left]].
    split; [reflexivity|]. split; [exact I|]. left. by exists "abc123". }
  assert (Hmatch : ~ validatorMatches (Sample.GET "/abc123") Sample.info3)
    by (by intros (etags & Hhdr & _)).
  destruct (content_failure_status (NewDownloadHandler Sample.vanishing)
              (Sample.GET "/abc123") Sample.info3 Sample.noInfo ""
              fedora.FedoraNotFound Hcond Hmatch eq_refl) as [Hresp _].
  unfold status. by rewrite Hresp.
Defined.



(** ** What of a request the response depends on *)

Create HintDb alike.

Section Alike.

Lemma alike_mret {A} (a : A) : alike (mret a) (mret a).
Proof. by intros σ1 σ2 H. Qed.

Lemma alike_return {A} : alike (@return_ A) (@return_ A).
Proof. by intros σ1 σ2 H. Qed.

Lemma alike_panic {A} : alike (@panic A) (@panic A).
Proof. by intros σ1 σ2 H. Qed.

Lemma alike_respond f : alike (respond f) (respond f).
Proof. intros σ1 σ2 [Hw Hc]. split; [done|]. split; cbn; congruence. Qed.

Lemma alike_call c : alike (call c) (call c).
Proof. intros σ1 σ2 [Hw Hc]. split; [done|]. split; cbn; congruence. Qed.

(** Log lines are no output: two computations may log differently. *)
Lemma alike_log args1 args2 : alike (log args1) (log args2).
Proof. intros σ1 σ2 [Hw Hc]. split; [done|]. by split. Qed.

Lemma alike_bind {A B} (m1 m2 : Handler A) (f1 f2 : A -> Handler B) :
  alike m1 m2 -> (forall a, alike (f1 a) (f2 a)) -> alike (m1 ≫= f1) (m2 ≫= f2).
Proof.
  intros Hm Hf σ1 σ2 Hσ. rewrite !bind_eq.
  destruct (Hm σ1 σ2 Hσ) as [Hflow Hout].
  destruct (m1 σ1) as [[a1| |] σ1'], (m2 σ2) as [[a2| |] σ2'];
    cbn [fst snd] in *; try discriminate; try done.
  injection Hflow as ->. by apply Hf.
Qed.

Hint Resolve alike_mret alike_return alike_panic alike_respond alike_call
  alike_log : alike.

Ltac alike :=
  repeat first
    [ solve [eauto with alike]
    | apply alike_bind; [|intros ?] ].

Lemma alike_notFound : alike notFound notFound.
Proof. apply alike_respond. Qed.
Hint Resolve alike_notFound : alike.

Lemma alike_methodGate r : alike (methodGate r) (methodGate r).
Proof. unfold methodGate. destruct (negb _); alike. Qed.

Lemma alike_index components i : alike (index components i) (index components i).
Proof. unfold index. destruct (components !! i); alike. Qed.

Lemma alike_parseVersion dh components :
  alike (parseVersion dh components) (parseVersion dh components).
Proof.
  unfold parseVersion.
  destruct (length components) as [|[|[|n]]]; alike.
  destruct (Versioned dh); alike.
  - apply alike_index.
  - destruct (strconv.Atoi _) as [version [e|]]; alike.
    destruct (0 <=? version)%Z; alike.
Qed.

Lemma alike_currentVersion dh info :
  alike (currentVersion dh info) (currentVersion dh info).
Proof.
  unfold currentVersion. destruct (_ =? -1)%Z; alike.
  destruct (strconv.Atoi _) as [version [e|]]; alike.
Qed.

Lemma alike_fetchInfo dh pid : alike (fetchInfo dh pid) (fetchInfo dh pid).
Proof.
  unfold fetchInfo. alike.
  destruct (fedora.GetDatastreamInfo _ _ _) as [dsinfo [e|]]; alike.
Qed.

Lemma alike_checkVersion dh version dsinfo :
  alike (checkVersion dh version dsinfo) (checkVersion dh version dsinfo).
Proof.
  unfold checkVersion. destruct (0 <=? version)%Z; alike.
  - apply alike_currentVersion.
  - destruct (negb _); alike.
Qed.

Lemma alike_etagLoop etags dsinfo :
  alike (etagLoop etags dsinfo) (etagLoop etags dsinfo).
Proof.
  induction etags as [|etag rest IH]; cbn [etagLoop]; alike.
  destruct (etag =? _)%string; alike.
Qed.

Lemma alike_sendContent dh pid dsinfo :
  alike (sendContent dh pid dsinfo) (sendContent dh pid dsinfo).
Proof.
  unfold sendContent. alike.
  destruct (fedora.GetDatastream _ _ _) as [[content info] [[|msg]|]]; alike.
Qed.

(** Without checker, the writer and the calls of a run depend on the
    request through its method, its path components and its
    [If-None-Match] values only. *)
Lemma run_determined (dh : DownloadHandler) (r r' : http.Request) :
  Auth dh = None ->
  http.Method r' = http.Method r ->
  pathComponents r' = pathComponents r ->
  http.Header r' !! "If-None-Match" = http.Header r !! "If-None-Match" ->
  (run dh r').1 = (run dh r).1 /\ sameOutput (run dh r').2 (run dh r).2.
Proof.
  intros Hauth Hmethod Hcomp Hhdr. unfold run.
  assert (H : alike (ServeHTTP dh r') (ServeHTTP dh r)); [|by apply H].
  unfold ServeHTTP. cbv zeta. rewrite Hcomp.
  apply alike_bind; [apply alike_log|intros _].
  apply alike_bind.
  { unfold methodGate. rewrite Hmethod. apply alike_methodGate. }
  intros _. apply alike_bind; [apply alike_index|intros c0].
  apply alike_bind.
  { unfold checkAuth. rewrite Hauth. alike. }
  intros _. apply alike_bind; [apply alike_parseVersion|intros version].
  unfold serveVersion.
  apply alike_bind; [apply alike_fetchInfo|intros dsinfo].
  apply alike_bind; [apply alike_checkVersion|intros _].
  apply alike_bind; [|intros _; apply alike_sendContent].
  unfold etagMatch. rewrite Hhdr.
  destruct (http.Header r !! "If-None-Match"); [apply alike_etagLoop|alike].
Qed.

End Alike.

(** X8: on a handler without checker, the response and the calls of a
    request depend on the request through its method, its path
    components and the values of its [If-None-Match] header only: two
    requests that agree on these are answered alike. *)
Theorem response_depends_on (dh : DownloadHandler) (r r' : http.Request) :
  Auth dh = None ->
  http.Method r' = http.Method r ->
  pathComponents r' = pathComponents r ->
  http.Header r' !! "If-None-Match" = http.Header r !! "If-None-Match" ->
  response dh r' = response dh r /\ callsMade dh r' = callsMade dh r.
Proof.
  intros Hauth Hmethod Hcomp Hhdr.
  destruct (run_determined dh r r' Hauth Hmethod Hcomp Hhdr) as [_ [Hw Hc]].
  unfold response, callsMade. by rewrite Hw, Hc.
Qed.

Lemma response_depends_on_witness :
  response Sample.versioned (Sample.GET "abc123/") =
  response Sample.versioned (Sample.GET "/abc123").
Proof.
  exact (proj1 (response_depends_on Sample.versioned (Sample.GET "/abc123")
                  (Sample.GET "abc123/") eq_refl eq_refl eq_refl eq_refl)).
Defined.

(** X9: a request with a single path component is served the same way
    whether the handler is versioned or not: the whole run, log lines
    included, is the same. *)
Theorem one_component_ignores_Versioned (dh : DownloadHandler) (r : http.Request)
    (c0 : string) (b : bool) :
  pathComponents r = [c0] ->
  run (withVersioned b dh) r = run dh r.
Proof.
  intros Hcomp.
  destruct (String.eqb_spec (http.Method r) "GET") as [HGET|Hother].
  - rewrite (ServeHTTP_GET dh r HGET), (ServeHTTP_GET (withVersioned b dh) r HGET).
    unfold identifier. rewrite Hcomp. reflexivity.
  - by rewrite (run_non_GET dh r Hother), (run_non_GET (withVersioned b dh) r Hother).
Qed.

Lemma one_component_ignores_Versioned_witness :
  run Sample.unversioned (Sample.GET "/abc123") =
  run Sample.versioned (Sample.GET "/abc123").
Proof.
  exact (one_component_ignores_Versioned Sample.versioned (Sample.GET "/abc123")
           "abc123" false eq_refl).
Defined.

(** ** The path and its components *)

Section Paths.

Lemma length_append_byte (s : string) (c : ascii) :
  String.length (s ++ String c "") = S (String.length s).
Proof.
  induction s as [|a s IH]; [done|].
  change (String a s ++ String c "") with (String a (s ++ String c "")).
  cbn [String.length]. by rewrite IH.
Qed.

Lemma sliceFrom_append (s t : string) :
  strings.sliceFrom (String.length s) (s ++ t) = t.
Proof. induction s as [|a s IH]; [by destruct t|exact IH]. Qed.

Lemma sliceTo_append (s t : string) :
  strings.sliceTo (String.length s) (s ++ t) = s.
Proof.
  induction s as [|a s IH]; [by destruct t|].
  change (String a s ++ t) with (String a (s ++ t)).
  cbn [String.length strings.sliceTo]. by rewrite IH.
Qed.

Lemma TrimSuffix_append (s : string) : strings.TrimSuffix (s ++ "/") "/" = s.
Proof.
  unfold strings.TrimSuffix, strings.HasSuffix.
  rewrite length_append_byte. change (String.length "/") with 1%nat.
  replace (S (String.length s) - 1)%nat with (String.length s) by lia.
  rewrite sliceFrom_append, sliceTo_append. done.
Qed.

Lemma TrimPrefix_absent (s : string) :
  strings.HasPrefix s "/" = false -> strings.TrimPrefix s "/" = s.
Proof. intros H. unfold strings.TrimPrefix. by rewrite H. Qed.

Lemma TrimSuffix_absent (s : string) :
  strings.HasSuffix s "/" = false -> strings.TrimSuffix s "/" = s.
Proof. intros H. unfold strings.TrimSuffix. by rewrite H. Qed.

Lemma TrimPrefix_present (s : string) : strings.TrimPrefix ("/" ++ s) "/" = s.
Proof. unfold strings.TrimPrefix, strings.HasPrefix. cbn. by destruct s. Qed.

Lemma HasPrefix_append (s t : string) :
  s <> "" -> strings.HasPrefix (s ++ t) "/" = strings.HasPrefix s "/".
Proof.
  intros Hs. destruct s as [|a s]; [done|].
  change (String a s ++ t) with (String a (s ++ t)).
  by rewrite !HasPrefix_byte.
Qed.

(** The trimmed path is the same with and without one leading and one
    trailing separator. *)
Lemma trimmedPath_slashes (s : string) (r : http.Request) :
  strings.HasPrefix s "/" = false ->
  strings.HasSuffix s "/" = false ->
  trimmedPath (withPath s r) = s /\
  trimmedPath (withPath ("/" ++ s) r) = s /\
  trimmedPath (withPath (s ++ "/") r) = s /\
  trimmedPath (withPath ("/" ++ s ++ "/") r) = s.
Proof.
  intros Hpre Hsuf. unfold trimmedPath, withPath. cbn [http.URL_Path].
  rewrite !TrimPrefix_present, TrimSuffix_append.
  rewrite (TrimPrefix_absent s Hpre), (TrimSuffix_absent s Hsuf).
  repeat split. destruct s as [|a s]; [done|].
  rewrite TrimPrefix_absent, TrimSuffix_append; [done|].
  by rewrite HasPrefix_append.
Qed.

Lemma Index_separator_None (s : string) :
  strings.Index s "/" = None -> hasByte "/" s = false.
Proof.
  induction s as [|a s IH]; [done|].
  cbn [strings.Index]. rewrite HasPrefix_byte. cbn [hasByte].
  destruct (Ascii.eqb a "/"); [done|].
  destruct (strings.Index s "/"); [done|]. intros _. by apply IH.
Qed.

Lemma Index_separator_Some (s : string) (i : nat) :
  strings.Index s "/" = Some i ->
  hasByte "/" (strings.sliceTo i s) = false /\
  s = strings.sliceTo i s ++ "/" ++ strings.sliceFrom (i + 1) s.
Proof.
  revert i. induction s as [|a s IH]; intros i; [done|].
  cbn [strings.Index]. rewrite HasPrefix_byte.
  destruct (Ascii.eqb_spec a "/") as [->|Hne].
  - intros [= <-]. split; [done|]. by destruct s.
  - destruct (strings.Index s "/") as [j|] eqn:Hj; [|done].
    intros [= <-]. destruct (IH j eq_refl) as [Hno Hs].
    cbn [strings.sliceTo hasByte Nat.add strings.sliceFrom]. split.
    + rewrite Hno. by apply Ascii.eqb_neq in Hne as ->.
    + change (String a (strings.sliceTo j s) ++ "/" ++ strings.sliceFrom (j + 1) s)
        with (String a (strings.sliceTo j s ++ "/" ++ strings.sliceFrom (j + 1) s)).
      by rewrite <- Hs.
Qed.

End Paths.

(** X10: one leading and one trailing separator of the path are
    ignored: for a path [s] that neither starts nor ends with a
    separator, the paths [s], [/s], [s/] and [/s/] have the same
    components, and a handler without checker answers them alike. *)
Theorem slashes_are_trimmed (s : string) (r : http.Request) :
  strings.HasPrefix s "/" = false ->
  strings.HasSuffix s "/" = false ->
  pathComponents (withPath s r) = strings.SplitN s "/" 2 /\
  pathComponents (withPath ("/" ++ s) r) = strings.SplitN s "/" 2 /\
  pathComponents (withPath (s ++ "/") r) = strings.SplitN s "/" 2 /\
  pathComponents (withPath ("/" ++ s ++ "/") r) = strings.SplitN s "/" 2 /\
  forall dh, Auth dh = None ->
    response dh (withPath ("/" ++ s) r) = response dh (withPath s r) /\
    response dh (withPath (s ++ "/") r) = response dh (withPath s r) /\
    response dh (withPath ("/" ++ s ++ "/") r) = response dh (withPath s r).
Proof.
  intros Hpre Hsuf.
  destruct (trimmedPath_slashes s r Hpre Hsuf) as (H0 & H1 & H2 & H3).
  assert (Hc : forall p, trimmedPath (withPath p r) = s ->
               pathComponents (withPath p r) = strings.SplitN s "/" 2)
    by (intros p Hp; unfold pathComponents; fold (trimmedPath (withPath p r));
        by rewrite Hp).
  pose proof (Hc _ H0) as C0. pose proof (Hc _ H1) as C1.
  pose proof (Hc _ H2) as C2. pose proof (Hc _ H3) as C3.
  repeat (split; [assumption|]).
  intros dh Hauth.
  assert (Hsame : forall p, pathComponents (withPath p r) = strings.SplitN s "/" 2 ->
                  response dh (withPath p r) = response dh (withPath s r)).
  { intros p Hp.
    destruct (run_determined dh (withPath s r) (withPath p r) Hauth eq_refl
                ltac:(by rewrite Hp, C0) eq_refl) as [_ [Hw _]].
    unfold response. by rewrite Hw. }
  auto.
Qed.

Lemma slashes_are_trimmed_witness :
  pathComponents (Sample.GET "/abc123/3/") = ["abc123"; "3"] /\
  response Sample.versioned (Sample.GET "/abc123/3/") =
  response Sample.versioned (Sample.GET "abc123/3").
Proof.
  destruct (slashes_are_trimmed "abc123/3" (Sample.GET "") eq_refl eq_refl)
    as (_ & _ & _ & Hcomp & Hresp).
  split; [exact Hcomp|]. exact (proj2 (proj2 (Hresp Sample.versioned eq_refl))).
Defined.

(** X11: the path, trimmed of one separator at each end, is split at
    its first separator.  The first component, which the identifier is
    made of, never contains a separator; joining the components with a
    separator gives the trimmed path back, so that any further
    separator stays in the second component. *)
Theorem path_splits_at_first_separator (r : http.Request) :
  (exists c0, pathComponents r = [c0] /\
     trimmedPath r = c0 /\ hasByte "/" c0 = false) \/
  (exists c0 c1, pathComponents r = [c0; c1] /\
     trimmedPath r = c0 ++ "/" ++ c1 /\ hasByte "/" c0 = false).
Proof.
  unfold pathComponents. fold (trimmedPath r). unfold strings.SplitN.
  destruct (strings.Index (trimmedPath r) "/") as [i|] eqn:Hi.
  - right. destruct (Index_separator_Some _ _ Hi) as [Hno Hs].
    exists (strings.sliceTo i (trimmedPath r)),
           (strings.sliceFrom (i + 1) (trimmedPath r)).
    by repeat split.
  - left. exists (trimmedPath r). repeat split. by apply Index_separator_None.
Qed.

(** ** [currentVersion] and [NewDownloadHandler] *)

(** X12: [currentVersion] never touches the response or calls a
    collaborator.  It returns the integer that the text after the last
    ['.'] of the version identifier parses as, logging nothing; when
    the identifier has no ['.'] or that text does not parse, it logs
    one line and returns [-1]. *)
Theorem currentVersion_result (dh : DownloadHandler) (info : fedora.DsInfo)
    (σ : World) :
  exists v σ',
    currentVersion dh info σ = (Next v, σ') /\
    w σ' = w σ /\ calls σ' = calls σ /\
    ((numericSuffix (fedora.VersionID info) v /\ σ' = σ) \/
     (unparsableVersionID (fedora.VersionID info) /\ v = (-1)%Z /\
      exists line, logged σ' = (logged σ ++ [line])%list)).
Proof.
  destruct (versionID_cases (fedora.VersionID info)) as [Hbad|[n Hnum]].
  - destruct (currentVersion_unparsable dh info σ Hbad) as [line Hrun].
    exists (-1)%Z, (log line σ).2. split; [done|]. split; [done|]. split; [done|].
    right. split; [done|]. split; [done|]. by exists line.
  - exists n, σ. rewrite (currentVersion_numeric dh info n σ Hnum).
    split; [done|]. split; [done|]. split; [done|]. by left.
Qed.

(** X13: a handler made by [NewDownloadHandler] has no checker, no
    prefix, no datastream name and no versions: a GET with one path
    component asks the repository for the datastream with the empty
    name of the object named by that component, without any
    authorization call before; a GET with two components is answered
    404 without any call. *)
Theorem NewDownloadHandler_serves (f : fedora.Fedora) (r : http.Request) :
  http.Method r = "GET" ->
  (forall c0, pathComponents r = [c0] ->
     exists rest,
       callsMade (NewDownloadHandler f) r = CallGetDatastreamInfo c0 "" :: rest) /\
  (forall c0 c1, pathComponents r = [c0; c1] ->
     status (NewDownloadHandler f) r = 404%Z /\
     callsMade (NewDownloadHandler f) r = []).
Proof.
  intros HGET. split.
  - intros c0 Hcomp.
    assert (Hreach : reachesMetadataFetch (NewDownloadHandler f) r (-1)).
    { split; [done|]. split; [exact I|]. left. by exists c0. }
    destruct (reaches_calls _ _ _ Hreach) as [rest Hrest].
    exists rest. rewrite Hrest. unfold identifier. by rewrite Hcomp.
  - intros c0 c1 Hcomp. unfold status, response, callsMade.
    by rewrite (run_version_rejected (NewDownloadHandler f) r c0 c1 HGET I Hcomp
                  (or_introl eq_refl)).
Qed.

Lemma NewDownloadHandler_serves_witness :
  status (NewDownloadHandler Sample.repository) (Sample.GET "/abc123/3") = 404%Z.
Proof.
  exact (proj1 (proj2 (NewDownloadHandler_serves Sample.repository
                         (Sample.GET "/abc123/3") eq_refl)
                  "abc123" "3" eq_refl)).
Defined.

(** ** The route table as a whole *)

Section Table.

Variable fedora : fedora.Fedora.
Variable auth : auth.HydraAuth.

Lemma addHandlerEntry_insert (t : gmap string main.DsidMux) (key : string)
    (v : main.HandlerConfig) :
  main.addHandlerEntry fedora auth t (key, v) =
  <[main.Port v := entryMux (closure fedora auth key v) v (muxOf t (main.Port v))]> t.
Proof. reflexivity. Qed.

Lemma entryMux_handlers (hh : main.HandlerFunc) (v : main.HandlerConfig)
    (mux : main.DsidMux) (name : string) :
  main.handlers (entryMux hh v mux) !! name =
  if decide (routes v name) then Some hh else main.handlers mux !! name.
Proof.
  unfold entryMux. destruct (decide (routes v name)) as [[Hin Hne]|Hnot].
  - by apply addNames_registered.
  - rewrite addNames_untouched.
    + by destruct (length (main.Datastream_id v) =? 0)%nat.
    + unfold routes in Hnot.
      destruct (decide (name ∈ main.Datastream_id v)); [|by left].
      destruct (decide (name = "default")); [by right|]. by destruct Hnot.
Qed.

Lemma entryMux_default (hh : main.HandlerFunc) (v : main.HandlerConfig)
    (mux : main.DsidMux) :
  main.DefaultHandler (entryMux hh v mux) =
  if decide (claimsDefault v) then Some hh else main.DefaultHandler mux.
Proof.
  unfold entryMux. destruct (decide (claimsDefault v)) as [[Hnil|Hin]|Hnot].
  - by rewrite Hnil.
  - by apply addNames_default.
  - unfold claimsDefault in Hnot.
    rewrite addNames_no_default by (intros ?; apply Hnot; by right).
    destruct (main.Datastream_id v); [|done]. destruct Hnot. by left.
Qed.

Lemma DsidMux_eq (m1 m2 : main.DsidMux) :
  main.DefaultHandler m1 = main.DefaultHandler m2 ->
  (forall name, main.handlers m1 !! name = main.handlers m2 !! name) ->
  m1 = m2.
Proof.
  destruct m1 as [d1 h1], m2 as [d2 h2]. cbn. intros -> Hh.
  f_equal. by apply map_eq.
Qed.

Lemma muxOf_insert (t : gmap string main.DsidMux) (port port' : string)
    (mux : main.DsidMux) :
  muxOf (<[port := mux]> t) port' = if decide (port = port') then mux else muxOf t port'.
Proof.
  unfold muxOf. rewrite lookup_insert. by destruct (decide (port = port')).
Qed.

(** The multiplexer depends on the one before through the entry. *)
Lemma entryMux_comm (hh1 hh2 : main.HandlerFunc) (v1 v2 : main.HandlerConfig)
    (mux : main.DsidMux) :
  (hh1 = hh2 /\ v1 = v2) \/
  ((forall name, ~ (routes v1 name /\ routes v2 name)) /\
   ~ (claimsDefault v1 /\ claimsDefault v2)) ->
  entryMux hh2 v2 (entryMux hh1 v1 mux) = entryMux hh1 v1 (entryMux hh2 v2 mux).
Proof.
  intros [[-> ->]|[Hroutes Hdefault]]; [done|]. apply DsidMux_eq.
  - rewrite !entryMux_default.
    destruct (decide (claimsDefault v1)), (decide (claimsDefault v2)); try done.
    by destruct Hdefault.
  - intros name. rewrite !entryMux_handlers.
    destruct (decide (routes v1 name)), (decide (routes v2 name)); try done.
    by destruct (Hroutes name).
Qed.

(** Two entries that do not conflict can be processed in either order. *)
Lemma addHandlerEntry_comm (t : gmap string main.DsidMux)
    (e1 e2 : string * main.HandlerConfig) :
  e1 = e2 \/ ~ conflict e1.2 e2.2 ->
  main.addHandlerEntry fedora auth (main.addHandlerEntry fedora auth t e1) e2 =
  main.addHandlerEntry fedora auth (main.addHandlerEntry fedora auth t e2) e1.
Proof.
  destruct e1 as [k1 v1], e2 as [k2 v2]. cbn [snd]. intros Hok.
  rewrite !addHandlerEntry_insert, !muxOf_insert.
  destruct (decide (main.Port v1 = main.Port v2)) as [Hport|Hport].
  - rewrite decide_True by congruence. rewrite Hport, !insert_insert_eq. f_equal.
    apply entryMux_comm. destruct Hok as [[= -> ->]|Hok]; [by left|right].
    unfold conflict in Hok. split.
    + intros name Hboth. apply Hok. split; [done|]. left. by exists name.
    + intros Hboth. apply Hok. split; [done|]. by right.
  - rewrite decide_False by congruence. by apply insert_insert_ne.
Qed.

Lemma foldl_permutation {A B} (f : A -> B -> A) (l1 l2 : list B) (a : A) :
  (forall x y a, x ∈ l1 -> y ∈ l1 -> f (f a x) y = f (f a y) x) ->
  l1 ≡ₚ l2 -> foldl f a l1 = foldl f a l2.
Proof.
  intros Hcomm Hperm. revert a Hcomm.
  induction Hperm as [|x l1 l2 Hperm IH|x y l|l1 l2 l3 H12 IH12 H23 IH23];
    intros a Hcomm; cbn [foldl].
  - done.
  - apply IH. intros x' y' a' Hx Hy. apply Hcomm; by right.
  - f_equal. apply Hcomm; [by left|by right; left].
  - rewrite IH12 by done. apply IH23.
    intros x y a' Hx Hy. apply Hcomm; by rewrite H12.
Qed.

Lemma foldl_dom (entries : list (string * main.HandlerConfig))
    (t : gmap string main.DsidMux) :
  dom (foldl (main.addHandlerEntry fedora auth) t entries) =
  dom t ∪ list_to_set ((fun e => main.Port e.2) <$> entries).
Proof.
  revert t. induction entries as [|[key v] rest IH]; intros t; cbn [foldl].
  - cbn. by rewrite union_empty_r_L.
  - rewrite IH, addHandlerEntry_insert, dom_insert_L. cbn.
    by rewrite (union_comm_L _ (dom t)), union_assoc_L.
Qed.

Lemma tableInvariant_step (entries : list (string * main.HandlerConfig))
    (t : gmap string main.DsidMux) (key : string) (v : main.HandlerConfig) :
  tableInvariant fedora auth entries t ->
  tableInvariant fedora auth (entries ++ [(key, v)])
    (main.addHandlerEntry fedora auth t (key, v)).
Proof.
  intros Hinv port. destruct (Hinv port) as (Ha & Hb & Hc & Hd).
  rewrite addHandlerEntry_insert, muxOf_insert.
  assert (Hold : forall k' v', (k', v') ∈ entries ->
                  (k', v') ∈ (entries ++ [(key, v)])%list)
    by (intros; apply elem_of_app; by left).
  assert (Hnew : (key, v) ∈ (entries ++ [(key, v)])%list)
    by (apply elem_of_app; right; by left).
  destruct (decide (main.Port v = port)) as [Hport|Hport].
  - subst port. split; [|split; [|split]].
    + intros name hh. rewrite entryMux_handlers.
      destruct (decide (routes v name)) as [Hr|Hr].
      * intros [= <-]. by exists key, v.
      * intros Hh. destruct (Ha name hh Hh) as (k' & v' & ? & ? & ? & ?).
        exists k', v'. auto.
    + intros k' v' name Hin Hp Hr. rewrite entryMux_handlers.
      destruct (decide (routes v name)); [by eexists|].
      apply elem_of_app in Hin as [Hin|Hin]; [by apply (Hb k' v')|].
      apply list_elem_of_singleton in Hin as [= -> ->]. done.
    + intros hh. rewrite entryMux_default.
      destruct (decide (claimsDefault v)) as [Hr|Hr].
      * intros [= <-]. by exists key, v.
      * intros Hh. destruct (Hc hh Hh) as (k' & v' & ? & ? & ? & ?).
        exists k', v'. auto.
    + intros k' v' Hin Hp Hr. rewrite entryMux_default.
      destruct (decide (claimsDefault v)); [by eexists|].
      apply elem_of_app in Hin as [Hin|Hin]; [by apply (Hd k' v')|].
      apply list_elem_of_singleton in Hin as [= -> ->]. done.
  - split; [|split; [|split]].
    + intros name hh Hh. destruct (Ha name hh Hh) as (k' & v' & ? & ? & ? & ?).
      exists k', v'. auto.
    + intros k' v' name Hin Hp Hr.
      apply elem_of_app in Hin as [Hin|Hin]; [by apply (Hb k' v')|].
      apply list_elem_of_singleton in Hin as [= -> ->]. done.
    + intros hh Hh. destruct (Hc hh Hh) as (k' & v' & ? & ? & ? & ?).
      exists k', v'. auto.
    + intros k' v' Hin Hp Hr.
      apply elem_of_app in Hin as [Hin|Hin]; [by apply (Hd k' v')|].
      apply list_elem_of_singleton in Hin as [= -> ->]. done.
Qed.

Lemma tableInvariant_runHandlers (entries : list (string * main.HandlerConfig)) :
  tableInvariant fedora auth entries (main.runHandlers entries fedora auth).
Proof.
  unfold main.runHandlers.
  induction entries as [|[key v] entries IH] using rev_ind.
  - intros port. cbn [foldl]. unfold muxOf. rewrite lookup_empty. cbn.
    repeat split; try done.
    + intros key v name Hin. by apply elem_of_nil in Hin.
    + intros key v Hin. by apply elem_of_nil in Hin.
  - rewrite foldl_snoc. by apply tableInvariant_step.
Qed.

End Table.

(** X14: the route table has one multiplexer for each port that some
    entry of the configuration names, and none for any other port. *)
Theorem route_table_ports (fedora : fedora.Fedora) (auth : auth.HydraAuth)
    (entries : list (string * main.HandlerConfig)) :
  dom (main.runHandlers entries fedora auth) =
  list_to_set ((fun e => main.Port e.2) <$> entries).
Proof.
  unfold main.runHandlers. rewrite foldl_dom, dom_empty_L.
  by rewrite union_empty_l_L.
Qed.

(** X15: in the multiplexer of a port, the routable segments are
    exactly the segment identifiers other than [default] that the
    entries of that port list, each bound to the handler of an entry
    that lists it; [default] itself is never a routable segment; and
    there is a default handler exactly when some entry of the port
    lists no identifier or lists [default], the default being the
    handler of such an entry. *)
Theorem route_table_bindings (fedora : fedora.Fedora) (auth : auth.HydraAuth)
    (entries : list (string * main.HandlerConfig)) (port : string)
    (mux : main.DsidMux) :
  main.runHandlers entries fedora auth !! port = Some mux ->
  (forall name, is_Some (main.handlers mux !! name) <->
     exists key v, (key, v) ∈ entries /\ main.Port v = port /\ routes v name) /\
  (forall name hh, main.handlers mux !! name = Some hh ->
     exists key v, (key, v) ∈ entries /\ main.Port v = port /\ routes v name /\
                   hh = closure fedora auth key v) /\
  main.handlers mux !! "default" = None /\
  (is_Some (main.DefaultHandler mux) <->
     exists key v, (key, v) ∈ entries /\ main.Port v = port /\ claimsDefault v) /\
  (forall hh, main.DefaultHandler mux = Some hh ->
     exists key v, (key, v) ∈ entries /\ main.Port v = port /\ claimsDefault v /\
                   hh = closure fedora auth key v).
Proof.
  intros Hmux.
  destruct (tableInvariant_runHandlers fedora auth entries port) as (Ha & Hb & Hc & Hd).
  unfold muxOf in *. rewrite Hmux in *.
  split; [|split; [exact Ha|split; [|split; [|exact Hc]]]].
  - intros name. split.
    + intros [hh Hh]. destruct (Ha name hh Hh) as (key & v & ? & ? & ? & _). eauto.
    + intros (key & v & Hin & Hport & Hr). by apply (Hb key v).
  - destruct (main.handlers mux !! "default") as [hh|] eqn:Hh; [|done].
    destruct (Ha "default" hh Hh) as (key & v & _ & _ & [_ Hne] & _). done.
  - split.
    + intros [hh Hh]. destruct (Hc hh Hh) as (key & v & ? & ? & ? & _). eauto.
    + intros (key & v & Hin & Hport & Hr). by apply (Hd key v).
Qed.

Lemma route_table_bindings_witness :
  exists mux,
    main.runHandlers [("thumbs", Sample.thumbnails); ("files", Sample.downloads)]
      Sample.repository (Sample.always auth.AuthAllow) !! "8080" = Some mux /\
    main.handlers mux !! "default" = None /\
    is_Some (main.handlers mux !! "content").
Proof.
  eexists. split; [reflexivity|].
  destruct (route_table_bindings Sample.repository (Sample.always auth.AuthAllow)
              [("thumbs", Sample.thumbnails); ("files", Sample.downloads)]
              "8080" _ eq_refl) as (Hroutes & _ & Hdefault & _).
  split; [exact Hdefault|]. apply Hroutes.
  exists "files", Sample.downloads. split; [by right; left|]. split; [done|].
  split; [by left|done].
Defined.

(** X16: the order in which the loop of [runHandlers] visits the
    configuration, which Go leaves unspecified, does not change the
    route table when no two entries conflict, that is when no two
    entries of one port list the same routable segment or both ask to
    be the default. *)
Theorem route_table_order_independent (fedora : fedora.Fedora)
    (auth : auth.HydraAuth) (entries entries' : list (string * main.HandlerConfig)) :
  (forall e1 e2, e1 ∈ entries -> e2 ∈ entries -> e1 = e2 \/ ~ conflict e1.2 e2.2) ->
  entries ≡ₚ entries' ->
  main.runHandlers entries fedora auth = main.runHandlers entries' fedora auth.
Proof.
  intros Hok Hperm. unfold main.runHandlers.
  apply foldl_permutation; [|done].
  intros e1 e2 t H1 H2. apply addHandlerEntry_comm. by apply Hok.
Qed.

Lemma route_table_order_independent_witness :
  main.runHandlers [("thumbs", Sample.thumbnails); ("files", Sample.downloads)]
    Sample.repository (Sample.always auth.AuthAllow) =
  main.runHandlers [("files", Sample.downloads); ("thumbs", Sample.thumbnails)]
    Sample.repository (Sample.always auth.AuthAllow).
Proof.
  apply route_table_order_independent; [|apply perm_swap].
  assert (Hno : ~ conflict Sample.thumbnails Sample.downloads).
  { intros [_ [(name & [H1 _] & [H2 _])|[_ [Hnil|Hin]]]].
    - apply list_elem_of_singleton in H2 as ->.
      apply elem_of_cons in H1 as [H1|H1]; [discriminate H1|].
      apply list_elem_of_singleton in H1. discriminate H1.
    - discriminate Hnil.
    - apply list_elem_of_singleton in Hin. discriminate Hin. }
  assert (Hno' : ~ conflict Sample.downloads Sample.thumbnails).
  { intros [Hp [(name & H1 & H2)|[H1 H2]]]; apply Hno; (split; [done|]).
    - left. by exists name.
    - by right. }
  intros e1 e2 H1 H2.
  apply elem_of_cons in H1 as [->|H1]; [|apply list_elem_of_singleton in H1 as ->];
    (apply elem_of_cons in H2 as [->|H2]; [|apply list_elem_of_singleton in H2 as ->]);
    first [by left | by right].
Defined.

(** X17: when two entries of one port both ask to be the default, the
    later one wins, so the two orders of visiting them give different
    route tables: which handler is the default then depends on the
    unspecified order of the loop. *)
Theorem route_table_order_dependent (fedora : fedora.Fedora) (auth : auth.HydraAuth)
    (k1 k2 : string) (v1 v2 : main.HandlerConfig) :
  main.Port v1 = main.Port v2 ->
  claimsDefault v1 ->
  claimsDefault v2 ->
  k1 <> k2 ->
  (exists mux, main.runHandlers [(k1, v1); (k2, v2)] fedora auth !! main.Port v1
               = Some mux /\
               main.DefaultHandler mux = Some (closure fedora auth k2 v2)) /\
  (exists mux, main.runHandlers [(k2, v2); (k1, v1)] fedora auth !! main.Port v1
               = Some mux /\
               main.DefaultHandler mux = Some (closure fedora auth k1 v1)) /\
  main.runHandlers [(k1, v1); (k2, v2)] fedora auth <>
  main.runHandlers [(k2, v2); (k1, v1)] fedora auth.
Proof.
  intros Hport H1 H2 Hk.
  assert (Hlast : forall ka va kb vb, main.Port va = main.Port vb -> claimsDefault vb ->
    exists mux, main.runHandlers [(ka, va); (kb, vb)] fedora auth !! main.Port vb
                = Some mux /\
                main.DefaultHandler mux = Some (closure fedora auth kb vb)).
  { intros ka va kb vb Hp Hc. unfold main.runHandlers. cbn [foldl].
    rewrite (addHandlerEntry_insert fedora auth _ kb vb).
    eexists. split; [apply lookup_insert_eq|].
    rewrite entryMux_default. by rewrite decide_True. }
  destruct (Hlast k1 v1 k2 v2 Hport H2) as (m12 & Hm12 & Hd12).
  destruct (Hlast k2 v2 k1 v1 (eq_sym Hport) H1) as (m21 & Hm21 & Hd21).
  rewrite <- Hport in Hm12.
  split; [by exists m12|]. split; [by exists m21|].
  intros Heq. rewrite Heq, Hm21 in Hm12. injection Hm12 as ->.
  rewrite Hd21 in Hd12. injection Hd12 as Hkey _. done.
Qed.

Lemma route_table_order_dependent_witness :
  main.runHandlers [("thumbs", Sample.thumbnails); ("files", Sample.fallback)]
    Sample.repository (Sample.always auth.AuthAllow) <>
  main.runHandlers [("files", Sample.fallback); ("thumbs", Sample.thumbnails)]
    Sample.repository (Sample.always auth.AuthAllow).
Proof.
  refine (proj2 (proj2 (route_table_order_dependent Sample.repository
                          (Sample.always auth.AuthAllow) "thumbs" "files"
                          Sample.thumbnails Sample.fallback eq_refl _ _ _))).
  - right. by right; left.
  - by left.
  - discriminate.
Defined.

(** ** The log file and the signals *)

Section LogFile.

Variable OpenFile : string -> gset main.File -> option main.File.
Hypothesis OpenFile_fresh : freshDescriptors OpenFile.

Lemma Reopen_cases (li li' : main.loginfo) (p p' : main.Process) :
  main.loginfo_Reopen OpenFile li p = main.Running (li', p') ->
  (main.name li = "" /\ li' = li /\ p' = p) \/
  (main.name li <> "" /\
   exists newf,
     OpenFile (main.name li) (main.openFiles p) = Some newf /\
     li' = {| main.name := main.name li; main.f := Some newf |} /\
     main.output p' = Some newf /\
     main.openFiles p' =
       ({[ newf ]} ∪ main.openFiles p) ∖ logFiles li).
Proof.
  unfold main.loginfo_Reopen.
  destruct (String.eqb_spec (main.name li) "") as [Hname|Hname].
  - intros [= <- <-]. by left.
  - destruct (OpenFile (main.name li) (main.openFiles p)) as [newf|] eqn:Hopen;
      [|done].
    intros [= <- <-]. right. split; [done|]. exists newf.
    repeat split. unfold logFiles. cbn.
    destruct (main.f li); [done|]. by rewrite difference_empty_L.
Qed.

Lemma Reopen_wellLogged (li li' : main.loginfo) (p p' : main.Process) :
  main.loginfo_Reopen OpenFile li p = main.Running (li', p') ->
  wellLogged (li, p) ->
  wellLogged (li', p') /\
  main.name li' = main.name li /\
  main.openFiles p' ∖ logFiles li' = main.openFiles p ∖ logFiles li.
Proof.
  intros Hrun Hwell.
  destruct (Reopen_cases li li' p p' Hrun)
    as [(_ & -> & ->)|(_ & newf & Hopen & -> & Hout & Hfiles)]; [done|].
  pose proof (OpenFile_fresh _ _ _ Hopen) as Hfresh.
  assert (Hold : newf ∉ logFiles li).
  { unfold logFiles. destruct (main.f li) as [old|] eqn:Hf.
    - intros ->%elem_of_singleton. destruct (Hwell _ Hf) as [_ Hin]. done.
    - apply not_elem_of_empty. }
  split; [|split; [done|]].
  - intros h [= <-]. cbn. split; [done|]. rewrite Hfiles.
    apply elem_of_difference. split; [|done].
    apply elem_of_union. left. by apply elem_of_singleton.
  - rewrite Hfiles.
    change (logFiles {| main.name := main.name li; main.f := Some newf |})
      with ({[ newf ]} : gset main.File).
    apply set_eq. intros h.
    rewrite !elem_of_difference, elem_of_union, elem_of_singleton.
    split.
    + intros [[[Heq|Hin] Hnot] Hne]; done.
    + intros [Hin Hnot]. split; [split; [by right|done]|].
      intros ->. done.
Qed.


End LogFile.

(** X18: [Reopen] does nothing when the [loginfo] has no file name, and
    ends the process with exit code 1 when the file cannot be opened.
    Otherwise, provided the operating system hands out a descriptor
    that is not in use, the log goes to the newly opened file, which
    the [loginfo] now holds, the file held before is closed, and every
    other open file of the process is left as it was. *)
Theorem Reopen_switches_log_file
    (OpenFile : string -> gset main.File -> option main.File)
    (li : main.loginfo) (p : main.Process) :
  freshDescriptors OpenFile ->
  wellLogged (li, p) ->
  (main.name li = "" -> main.loginfo_Reopen OpenFile li p = main.Running (li, p)) /\
  (main.name li <> "" -> OpenFile (main.name li) (main.openFiles p) = None ->
   main.loginfo_Reopen OpenFile li p = main.Exited 1) /\
  (forall newf, main.name li <> "" ->
     OpenFile (main.name li) (main.openFiles p) = Some newf ->
     exists p',
       main.loginfo_Reopen OpenFile li p =
         main.Running ({| main.name := main.name li; main.f := Some newf |}, p') /\
       main.output p' = Some newf /\
       newf ∈ main.openFiles p' /\
       (forall old, main.f li = Some old -> old ∉ main.openFiles p') /\
       main.openFiles p' ∖ {[ newf ]} = main.openFiles p ∖ logFiles li).
Proof.
  intros Hfresh Hwell. split; [|split].
  - intros Hname. unfold main.loginfo_Reopen. by rewrite Hname.
  - intros Hname Hopen. unfold main.loginfo_Reopen.
    destruct (String.eqb_spec (main.name li) ""); [done|]. by rewrite Hopen.
  - intros newf Hname Hopen.
    assert (Hrun : exists p', main.loginfo_Reopen OpenFile li p =
              main.Running ({| main.name := main.name li; main.f := Some newf |}, p')).
    { unfold main.loginfo_Reopen.
      destruct (String.eqb_spec (main.name li) ""); [done|]. rewrite Hopen.
      by eexists. }
    destruct Hrun as [p' Hrun]. exists p'. split; [done|].
    destruct (Reopen_wellLogged OpenFile Hfresh _ _ _ _ Hrun Hwell)
      as (Hw' & _ & Hfiles).
    destruct (Hw' newf eq_refl) as [Hout Hin]. split; [done|]. split; [done|].
    split; [|exact Hfiles].
    intros old Hold Hopen'.
    assert (Hne : old <> newf).
    { intros ->. destruct (Hwell newf Hold) as [_ Hin'].
      by apply (Hfresh _ _ _ Hopen). }
    assert (Helem : old ∈ main.openFiles p' ∖ {[ newf ]}).
    { apply elem_of_difference. split; [done|]. by intros ?%elem_of_singleton. }
    change ({[ newf ]}) with (logFiles {| main.name := main.name li; main.f := Some newf |})
      in Helem.
    rewrite Hfiles in Helem. apply elem_of_difference in Helem as [_ Hnot].
    apply Hnot. unfold logFiles. rewrite Hold. by apply elem_of_singleton.
Qed.

Lemma Reopen_switches_log_file_witness :
  main.loginfo_Reopen (fun _ opened => Some (fresh opened))
    {| main.name := "disadis.log"; main.f := Some 1%positive |}
    {| main.output := Some 1%positive; main.openFiles := {[ 1%positive ]} |}
  <> main.Exited 1.
Proof.
  assert (Hfresh : freshDescriptors (fun _ opened => Some (fresh opened))).
  { intros name opened h [= <-]. apply is_fresh. }
  assert (Hwell : wellLogged
    ({| main.name := "disadis.log"; main.f := Some 1%positive |},
     {| main.output := Some 1%positive; main.openFiles := {[ 1%positive ]} |})).
  { intros h Hh. cbn [fst snd main.f main.output main.openFiles] in *.
    injection Hh as <-. split; [reflexivity|]. by apply elem_of_singleton_2. }
  destruct (Reopen_switches_log_file _ _ _ Hfresh Hwell) as (_ & _ & Hopen).
  destruct (Hopen _ ltac:(discriminate) eq_refl) as (p' & Hrun & _).
  cbn [main.name main.openFiles] in Hrun. rewrite Hrun. discriminate.
Defined.



(** ** [main] *)

Section Main.

Variable OpenFile : string -> gset main.File -> option main.File.
Variable ReadFileInto : string -> main.Config * option string.
Variable CurrentUser : Type.
Variable NewPubtktAuthFromKeyFile : string -> main.Exec CurrentUser.
Variable DB : Type.
Variable sql_Open : string -> string -> DB * option string.
Variable DeviseAuth : string -> string -> DB -> CurrentUser.
Variable NewRemote : string -> string -> fedora.Fedora.
Variable NewHydraAuth :
  string -> string -> list string -> option CurrentUser -> auth.HydraAuth.

Local Abbreviation main_ :=
  (main.main OpenFile ReadFileInto CurrentUser NewPubtktAuthFromKeyFile
     DB sql_Open DeviseAuth NewRemote NewHydraAuth).

Lemma main_without_config (flags : main.Vars) (p0 : main.Process) :
  main.configFile flags = "" ->
  main_ flags p0 = main.Returns \/ exists code, main_ flags p0 = main.Exits code.
Proof.
  intros Hconfig. unfold main.main, main.settings. rewrite Hconfig.
  cbn [negb String.eqb].
  destruct (main.loginfo_Reopen OpenFile _ p0) as [[logw p]|code]; [|eauto].
  destruct (main.fedoraAddr flags =? "")%string; [eauto|].
  destruct (main.currentUser _ _ _ _ _ flags) as [user|code]; [|eauto].
  by left.
Qed.

(** X20: without a configuration file [main] never starts a listener:
    the handlers come from the configuration file only, so that with
    the command-line flags alone [main] returns for lack of handlers,
    or exits. *)
Theorem main_needs_config_file (flags : main.Vars) (p0 : main.Process) :
  main.configFile flags = "" ->
  (main_ flags p0 = main.Returns \/ exists code, main_ flags p0 = main.Exits code) /\
  forall logw p table, main_ flags p0 <> main.Serves logw p table.
Proof.
  intros Hconfig.
  destruct (main_without_config flags p0 Hconfig) as [H|[code H]].
  - split; [by left|]. intros logw p table. by rewrite H.
  - split; [right; by exists code|]. intros logw p table. by rewrite H.
Qed.

(** X21: when a configuration file is named, the values of the other
    flags are ignored altogether: the log file, the Fedora address and
    the authorization settings are those of the file, even where the
    file leaves them empty. *)
Theorem main_config_replaces_flags (flags flags' : main.Vars) (p0 : main.Process) :
  main.configFile flags <> "" ->
  main.configFile flags' = main.configFile flags ->
  main_ flags' p0 = main_ flags p0.
Proof.
  intros Hconfig Heq. unfold main.main, main.settings. rewrite Heq.
  destruct (String.eqb_spec (main.configFile flags) ""); [done|].
  cbn [negb]. by destruct (ReadFileInto (main.configFile flags)).
Qed.

(** X22: when [main] starts the listeners, a configuration file was
    named; what [ReadFileInto] left in the configuration, whether or
    not it reported an error, has a Fedora address that is not empty
    and at least one handler; the route table is the one [runHandlers]
    builds from these handlers, with the repository client and the
    checker made for that address and the administrators of the file;
    and the log file is the one the file names. *)
Theorem main_serves (flags : main.Vars) (p0 : main.Process)
    (logw : main.loginfo) (p : main.Process) (table : gmap string main.DsidMux) :
  main_ flags p0 = main.Serves logw p table ->
  main.configFile flags <> "" /\
  main.Fedora_addr (main.General_ (ReadFileInto (main.configFile flags)).1) <> "" /\
  main.Handler (ReadFileInto (main.configFile flags)).1 <> [] /\
  main.name logw =
    main.Log_filename (main.General_ (ReadFileInto (main.configFile flags)).1) /\
  exists user,
    table =
      main.runHandlers (main.Handler (ReadFileInto (main.configFile flags)).1)
        (NewRemote
           (main.Fedora_addr (main.General_ (ReadFileInto (main.configFile flags)).1))
           "")
        (NewHydraAuth
           (main.Fedora_addr (main.General_ (ReadFileInto (main.configFile flags)).1))
           ""
           (main.Admin (main.General_ (ReadFileInto (main.configFile flags)).1))
           user).
Proof.
  intros Hrun.
  destruct (String.eqb_spec (main.configFile flags) "") as [Hnone|Hconfig].
  { destruct (main_without_config flags p0 Hnone) as [H|[code H]];
      rewrite H in Hrun; discriminate Hrun. }
  split; [done|]. revert Hrun. unfold main.main, main.settings.
  destruct (String.eqb_spec (main.configFile flags) ""); [done|]. cbn [negb].
  destruct (ReadFileInto (main.configFile flags)) as [config err]. cbn [fst].
  destruct (main.loginfo_Reopen OpenFile _ p0) as [[logw' p']|code] eqn:Hlog;
    [|done].
  cbn [main.fedoraAddr main.logfilename] in *.
  destruct (String.eqb_spec (main.Fedora_addr (main.General_ config)) "");
    [done|].
  destruct (main.currentUser _ _ _ _ _ _) as [user|code]; [|done].
  destruct (main.Handler config) as [|e rest] eqn:Hhandlers; [done|].
  cbn [length Nat.eqb]. intros [= <- <- <-].
  split; [done|]. split; [done|]. split; [|by exists user].
  unfold main.loginfo_Reopen, main.NewReopener in Hlog. cbn [main.name main.f] in Hlog.
  destruct (main.Log_filename (main.General_ config) =? "")%string.
  - by injection Hlog as <- _.
  - destruct (OpenFile _ _); [|done]. by injection Hlog as <- _.
Qed.

End Main.

Lemma main_needs_config_file_witness : Sample.runMain Sample.onlyFlags = main.Returns.
Proof.
  destruct (main_needs_config_file Sample.openAny Sample.readConfig string
              (fun key => main.Running key) string (fun _ dsn => (dsn, None))
              (fun s _ _ => s) (fun _ _ => Sample.repository)
              (fun _ _ _ _ => Sample.always auth.AuthAllow)
              Sample.onlyFlags Sample.start eq_refl) as [[H|[code H]] _].
  - exact H.
  - discriminate H.
Defined.

Lemma main_config_replaces_flags_witness :
  Sample.runMain Sample.onlyFlags <> Sample.runMain Sample.withConfigFile /\
  Sample.runMain
    {| main.logfilename := ""; main.pubtktKey := ""; main.fedoraAddr := "";
       main.secret := "s"; main.database := ""; main.cookieName := "";
       main.configFile := "disadis.gcfg" |}
  = Sample.runMain Sample.withConfigFile.
Proof.
  split; [discriminate|].
  exact (main_config_replaces_flags Sample.openAny Sample.readConfig string
           (fun key => main.Running key) string (fun _ dsn => (dsn, None))
           (fun s _ _ => s) (fun _ _ => Sample.repository)
           (fun _ _ _ _ => Sample.always auth.AuthAllow)
           Sample.withConfigFile _ Sample.start ltac:(discriminate) eq_refl).
Defined.

Lemma main_serves_witness :
  exists logw p table,
    Sample.runMain Sample.withConfigFile = main.Serves logw p table /\
    main.name logw = "".
Proof.
  eexists _, _, _. split; [reflexivity|].
  exact (proj1 (proj2 (proj2 (proj2
    (main_serves Sample.openAny Sample.readConfig string
       (fun key => main.Running key) string (fun _ dsn => (dsn, None))
       (fun s _ _ => s) (fun _ _ => Sample.repository)
       (fun _ _ _ _ => Sample.always auth.AuthAllow)
       Sample.withConfigFile Sample.start _ _ _ eq_refl))))).
Defined.
